(** * EnglishEar API diagnostics: a shallow embedding of the four scripts

    The repository holds four Python scripts that read a credential from a
    [.env] file, call a hosted HTTP / WebSocket API and print what they find:

    - [check_api_usage.py]
    - [test_api.py]
    - [test_gpt35.py]
    - [test_realtime_api.py]

    The embedding keeps the Python text recognisable.  A [str] the scripts
    compute with is a list of Unicode code points, the literal text of the
    source (messages, addresses, paths) is a primitive string holding the
    bytes of the source file, a value decoded from JSON is a [value], a float
    is a binary64 float.  Everything a script does to the outside world is an
    [action] appended to a trace; everything the outside world answers comes
    from a [world] record, so that a theorem quantified over [world] speaks of
    every behaviour of the file system, the clock and the remote server. *)

From Stdlib Require Import List ZArith NArith Bool Lia.
From Stdlib Require Import PrimString Uint63 PrimFloat SpecFloat FloatOps.
Import ListNotations.

Set Implicit Arguments.

(* ================================================================== *)
(** * Python strings *)
(* ================================================================== *)

(** A Python [str] is a sequence of code points. *)
Definition pystr := list N.

(** An ASCII literal of the source as a [str]: its characters from
    position [i] on, [n] of them. *)
Fixpoint chars_from (s : string) (n : nat) (i : int) : pystr :=
  match n with
  | O => []
  | S n' => Z.to_N (Uint63.to_Z (get s i)) :: chars_from s n' (i + 1)%uint63
  end.

Definition py (s : string) : pystr :=
  chars_from s (Z.to_nat (Uint63.to_Z (length s))) 0%uint63.

Arguments py : simpl never.

Definition pystr_eqb (a b : pystr) : bool :=
  if list_eq_dec N.eq_dec a b then true else false.

Module PyStr.

Local Open Scope N_scope.

(** [str.isspace] on one code point: the characters CPython's
    [_PyUnicode_IsWhitespace] accepts. *)
Definition isspace (c : N) : bool :=
  ((9 <=? c) && (c <=? 13)) || ((28 <=? c) && (c <=? 32))
  || (c =? 133) || (c =? 160) || (c =? 5760)
  || ((8192 <=? c) && (c <=? 8202))
  || (c =? 8232) || (c =? 8233) || (c =? 8239) || (c =? 8287)
  || (c =? 12288).

(** [s.lstrip()], [s.rstrip()] and [s.strip()] with no argument. *)
Fixpoint lstrip (s : pystr) : pystr :=
  match s with
  | c :: s' => if isspace c then lstrip s' else s
  | [] => []
  end.

Definition rstrip (s : pystr) : pystr := rev (lstrip (rev s)).

Definition strip (s : pystr) : pystr := rstrip (lstrip s).

(** [s.startswith(p)]. *)
Fixpoint startswith (s p : pystr) : bool :=
  match p, s with
  | [], _ => true
  | _ :: _, [] => false
  | a :: p', b :: s' => (a =? b) && startswith s' p'
  end.

(** [s.split(sep)] for a separator of one character, the way the scripts
    call it ([line.split('=')]): every occurrence of the separator cuts, and
    the result always has at least one field. *)
Fixpoint split (sep : N) (s : pystr) : list pystr :=
  match s with
  | [] => [[]]
  | c :: s' =>
      if c =? sep then [] :: split sep s'
      else match split sep s' with
           | field :: fields => (c :: field) :: fields
           | [] => [[c]]
           end
  end.

(** Text mode with the default [newline=None]: a carriage return followed
    by a line feed, or a carriage return alone, is read as one line feed. *)
Fixpoint universal_newlines (s : pystr) : pystr :=
  match s with
  | [] => []
  | c :: rest =>
      if c =? 13 then
        match rest with
        | d :: _ => if d =? 10 then universal_newlines rest
                    else 10 :: universal_newlines rest
        | [] => [10]
        end
      else c :: universal_newlines rest
  end.

(** [for line in f]: the text cut after every line feed, each line keeping
    its line feed; a last line without one is kept too. *)
Fixpoint readlines (s : pystr) : list pystr :=
  match s with
  | [] => []
  | c :: s' =>
      if c =? 10 then [c] :: readlines s'
      else match readlines s' with
           | line :: lines => (c :: line) :: lines
           | [] => [[c]]
           end
  end.

(** [s.lower()], as far as ASCII goes: besides the letters A to Z the Kelvin
    sign (U+212A) is the one character whose lower case is an ASCII letter;
    every other character is left as it is, which decides
    [a.lower() == b.lower()] as Python does whenever one side is ASCII, as
    the names the scripts look up are. *)
Definition lower_char (c : N) : N :=
  if (65 <=? c) && (c <=? 90) then c + 32
  else if c =? 8490 then 107
  else c.

Definition lower (s : pystr) : pystr := map lower_char s.

(** [s[:n]] and [s[-n:]] on a sequence. *)
Definition slice_to {A} (n : nat) (s : list A) : list A := firstn n s.
Definition slice_last {A} (n : nat) (s : list A) : list A :=
  skipn (List.length s - n)%nat s.

End PyStr.

(* ================================================================== *)
(** * Python values, exceptions and the pure operations that may raise *)
(* ================================================================== *)

(** What [json.loads] and [response.json()] return, and the payloads the
    scripts build: [None], [bool], [int], [float], [str], [list], and [dict]
    with [str] keys (an association list, read with the first match). *)
#[warnings="-register-all"]
Inductive value :=
| VNone
| VBool (b : bool)
| VInt (z : Z)
| VFloat (f : float)
| VStr (s : pystr)
| VList (l : list value)
| VDict (d : list (pystr * value)).

(** Exceptions the interpreter itself raises while a script handles data.
    Every one of them is a subclass of [Exception]. *)
Inductive builtin_error :=
| KeyError (key : value)
| TypeError
| AttributeError
| IndexError
| JSONDecodeError
| OverflowError
| UnicodeEncodeError.

(** Exceptions as the [except] clauses of the scripts tell them apart. *)
Inductive exn :=
| Builtin (e : builtin_error)
| InvalidStatusCode (status_code : Z)  (* websockets.InvalidStatusCode *)
| AsyncioTimeoutError                  (* asyncio.TimeoutError *)
| OtherException (name : string)       (* any other subclass of Exception:
                                          OSError, requests' ConnectionError,
                                          websockets' ConnectionClosed, ... *)
| BaseExceptionOnly (name : string).   (* KeyboardInterrupt, SystemExit,
                                          asyncio.CancelledError: derived from
                                          BaseException, not from Exception *)

(** [isinstance(e, Exception)]. *)
Definition is_Exception (e : exn) : bool :=
  match e with
  | BaseExceptionOnly _ => false
  | _ => true
  end.

(** The result of a pure operation: a value, or a raised builtin error. *)
Inductive result (A : Type) :=
| Ok (a : A)
| Err (e : builtin_error).
Arguments Err {A} e.

Definition result_bind {A B} (r : result A) (k : A -> result B) : result B :=
  match r with
  | Ok a => k a
  | Err e => Err e
  end.

Module PyOps.

Fixpoint lookup (k : pystr) (d : list (pystr * value)) : option value :=
  match d with
  | [] => None
  | (k', v) :: d' => if pystr_eqb k k' then Some v else lookup k d'
  end.

(** [v[k]] with a [str] key. *)
Definition getitem (v : value) (k : pystr) : result value :=
  match v with
  | VDict d => match lookup k d with
               | Some x => Ok x
               | None => Err (KeyError (VStr k))
               end
  | _ => Err TypeError
  end.

(** [v[i]] with a non-negative [int] index.  A [dict] decoded from JSON has
    only [str] keys, so an [int] subscript finds nothing. *)
Definition getindex (v : value) (i : nat) : result value :=
  match v with
  | VList l => match nth_error l i with
               | Some x => Ok x
               | None => Err IndexError
               end
  | VStr s => match nth_error s i with
              | Some c => Ok (VStr [c])
              | None => Err IndexError
              end
  | VDict _ => Err (KeyError (VInt (Z.of_nat i)))
  | _ => Err TypeError
  end.

(** [v.get(k, default)]: only a [dict] has the method. *)
Definition get (v : value) (k : pystr) (default : value) : result value :=
  match v with
  | VDict d => match lookup k d with
               | Some x => Ok x
               | None => Ok default
               end
  | _ => Err AttributeError
  end.

(** [len(v)]. *)
Definition len (v : value) : result nat :=
  match v with
  | VStr s => Ok (List.length s)
  | VList l => Ok (List.length l)
  | VDict d => Ok (List.length d)
  | _ => Err TypeError
  end.

(** [v[:n]]: a [str] or a [list] is cut; nothing else can be sliced. *)
Definition slice_to (n : nat) (v : value) : result value :=
  match v with
  | VStr s => Ok (VStr (PyStr.slice_to n s))
  | VList l => Ok (VList (PyStr.slice_to n l))
  | _ => Err TypeError
  end.

(** [for m in v]: the elements of a [list], the characters of a [str], the
    keys of a [dict]. *)
Definition iter (v : value) : result (list value) :=
  match v with
  | VList l => Ok l
  | VStr s => Ok (map (fun c => VStr [c]) s)
  | VDict d => Ok (map (fun kv => VStr (fst kv)) d)
  | _ => Err TypeError
  end.

(** [v == 'literal']: only a [str] with the same characters is equal. *)
Definition eq_str (v : value) (s : pystr) : bool :=
  match v with
  | VStr t => pystr_eqb t s
  | _ => false
  end.

(** ['literal' in ids] for a list [ids]. *)
Definition contains (ids : list value) (s : pystr) : bool :=
  existsb (fun v => eq_str v s) ids.

(** [float(z)] for an [int], rounded to nearest ([to_float]); an [int]
    beyond the range of a binary64 float raises [OverflowError]. *)
Definition to_float (z : Z) : float :=
  SF2Prim (binary_normalize prec emax z 0%Z false).

Definition float_of_int (z : Z) : result float :=
  let f := to_float z in
  if is_infinity f then Err OverflowError else Ok f.

(** [v * x] for a float [x]. *)
Definition mul_float (v : value) (x : float) : result float :=
  match v with
  | VInt z => result_bind (float_of_int z) (fun f => Ok (f * x)%float)
  | VBool b => Ok ((if b then 1 else 0) * x)%float
  | VFloat f => Ok (f * x)%float
  | _ => Err TypeError
  end.

(** Truthiness of an optional string ([if not API_KEY]). *)
Definition truthy (k : option pystr) : bool :=
  match k with
  | None => false
  | Some [] => false
  | Some (_ :: _) => true
  end.

End PyOps.

(* ================================================================== *)
(** * What a script does, and what the outside world answers *)
(* ================================================================== *)

(** One piece of the text handed to [print]: literal source text (kept as
    the bytes of the source file), or a value interpolated by an f-string,
    kept as the value with its format specification.  [Own] is text the
    program has from its own machine: the credential, which [open] has
    decoded in strict mode, and the date from [strftime]. *)
Inductive piece :=
| Lit (s : string)
| Own (s : pystr)
| Fmt (v : value)
| FmtSpec (v : value) (spec : string)
| FmtExn (e : exn).

(** Standard output encodes as UTF-8.  The one thing a [str] can hold that
    UTF-8 cannot write is a lone surrogate, a code point from U+D800 to
    U+DFFF; [json.loads] accepts one in a JSON string. *)
Definition surrogate (c : N) : bool := ((55296 <=? c) && (c <=? 57343))%N.

Definition no_surrogate (s : pystr) : bool :=
  forallb (fun c => negb (surrogate c)) s.

(** An f-string renders a [str] as it is, and anything else through [str()],
    which is ASCII for numbers and [None] and goes through [repr], with its
    escapes, for the strings inside a list or a dict. *)
Definition encodable (v : value) : bool :=
  match v with
  | VStr s => no_surrogate s
  | _ => true
  end.

(** The message of an exception is taken to be text that can be written, as
    the messages of the builtin errors are. *)
Definition piece_ok (p : piece) : bool :=
  match p with
  | Fmt v | FmtSpec v _ => encodable v
  | Lit _ | Own _ | FmtExn _ => true
  end.

(** The line can be written to standard output. *)
Fixpoint printable (line : list piece) : bool :=
  match line with
  | [] => true
  | p :: rest => if piece_ok p then printable rest else false
  end.

(** A text together with what [json.loads] makes of it ([None] when the text
    is not JSON and [json.loads] raises). *)
Record document := {
  text : pystr;
  parsed : option value
}.

Definition json_loads (d : document) : result value :=
  match parsed d with
  | Some v => Ok v
  | None => Err JSONDecodeError
  end.

(** A [requests.Response]. *)
Record response := {
  status_code : Z;
  body : document;
  content : list N;
  headers : list (pystr * pystr)
}.

(** An HTTP request as [requests.get] / [requests.post] receive it. *)
Record request := {
  method : string;
  url : string;
  req_headers : list (string * pystr);
  req_json : option value
}.

Inductive action :=
| APrint (line : list piece) (end_ : string)     (* print(..., end=end_) *)
| AOpenRead (path : string)                      (* open(path, 'r') *)
| AWriteFile (path : string) (data : list N)     (* open(path, 'wb'), write *)
| AHttp (r : request)                            (* requests.get / .post *)
| AConnect (uri : string) (additional_headers : list (string * pystr))
| ASend (message : value)                        (* websocket.send(dumps(m)) *)
| ARecv (timeout : float)        (* wait_for(websocket.recv(), timeout) *)
| AClose                                         (* leaving [async with] *)
| ASleep (seconds : float)                       (* time.sleep *)
| AExit (code : Z).                              (* sys.exit *)

(** The answer of the outside world to an operation. *)
Inductive reply (A : Type) :=
| Answer (a : A)
| Fail (e : exn).
Arguments Fail {A} e.

(** Everything a run depends on.  The n-th request, send, receive and clock
    reading are numbered from 0 in the order the script issues them. *)
Record world := {
  env_file : reply pystr;                 (* opening and reading the .env *)
  now : pystr;                            (* datetime.now().strftime(...) *)
  time_time : nat -> float;
  http : nat -> request -> reply response;
  ssl_context : reply unit;               (* create_default_context etc. *)
  ws_connect : reply unit;                (* the WebSocket handshake *)
  ws_send : nat -> value -> reply unit;
  ws_recv : nat -> reply document;        (* a message, or a timeout/error *)
  write_file : string -> list N -> reply unit
}.

Record counters := {
  n_clock : nat;
  n_http : nat;
  n_send : nat;
  n_recv : nat
}.

Definition start : counters :=
  {| n_clock := 0; n_http := 0; n_send := 0; n_recv := 0 |}.

(** How a computation ends.  [OutOfFuel] is the embedding's own: the
    [while True] loop of the realtime script is unrolled a bounded number of
    times, and a run that needs more iterations ends so. *)
Inductive outcome (A : Type) :=
| Returned (a : A)
| Raised (e : exn)
| OutOfFuel.
Arguments Raised {A} e.
Arguments OutOfFuel {A}.

(** A computation: from the counters, the actions performed in order, the
    new counters and the outcome. *)
Definition M (A : Type) := counters -> list action * counters * outcome A.

Definition acts {A} (r : list action * counters * outcome A) := fst (fst r).
Definition final {A} (r : list action * counters * outcome A) := snd (fst r).
Definition out {A} (r : list action * counters * outcome A) := snd r.

Definition ret {A} (a : A) : M A := fun c => ([], c, Returned a).

Definition raise {A} (e : exn) : M A := fun c => ([], c, Raised e).

Definition bind {A B} (m : M A) (k : A -> M B) : M B :=
  fun c =>
    let '(t1, c1, o1) := m c in
    match o1 with
    | Returned a => let '(t2, c2, o2) := k a c1 in (t1 ++ t2, c2, o2)
    | Raised e => (t1, c1, Raised e)
    | OutOfFuel => (t1, c1, OutOfFuel)
    end.

Declare Scope py_scope.
Delimit Scope py_scope with py.
Notation "x <- m ;; k" := (bind m (fun x => k))
  (at level 61, m at next level, right associativity) : py_scope.
Notation "m ;; k" := (bind m (fun _ => k))
  (at level 61, right associativity) : py_scope.
Open Scope py_scope.

(** A pure operation inside a computation. *)
Definition lift {A} (r : result A) : M A :=
  match r with
  | Ok a => ret a
  | Err e => raise (Builtin e)
  end.

(** [try: body  except ...: handler].  [handlers e] is the first clause that
    matches [e], if any. *)
Definition try_except {A} (body : M A) (handlers : exn -> option (M A)) : M A :=
  fun c =>
    let '(t1, c1, o1) := body c in
    match o1 with
    | Raised e =>
        match handlers e with
        | Some h => let '(t2, c2, o2) := h c1 in (t1 ++ t2, c2, o2)
        | None => (t1, c1, Raised e)
        end
    | _ => (t1, c1, o1)
    end.

(** [except Exception as e: h e]. *)
Definition except_Exception {A} (h : exn -> M A) (e : exn) : option (M A) :=
  if is_Exception e then Some (h e) else None.

(** [print(line)] and [print(line, end=end_)].  The text is encoded as a
    whole before any of it is written: a line that cannot be encoded raises
    [UnicodeEncodeError] and leaves nothing on the output. *)
Definition print_end (line : list piece) (end_ : string) : M unit :=
  fun c =>
    if printable line then ([APrint line end_], c, Returned tt)
    else ([], c, Raised (Builtin UnicodeEncodeError)).

Definition newline : string := make 1 10%uint63.

Definition print (line : list piece) : M unit := print_end line newline.

(** ["=" * n]. *)
Fixpoint str_mul (s : string) (n : nat) : string :=
  match n with
  | O => ""%pstring
  | S n' => cat s (str_mul s n')
  end.

Section Operations.

Variable w : world.

Definition of_reply {A} (r : reply A) : outcome A :=
  match r with
  | Answer a => Returned a
  | Fail e => Raised e
  end.

(** [open(path, 'r')] and the iteration over its lines. *)
Definition open_read (path : string) : M (list pystr) :=
  fun c =>
    ([AOpenRead path], c,
     match env_file w with
     | Answer s => Returned (PyStr.readlines (PyStr.universal_newlines s))
     | Fail e => Raised e
     end).

(** [with open(path, 'wb') as f: f.write(data)]. *)
Definition write_bytes (path : string) (data : list N) : M unit :=
  fun c => ([AWriteFile path data], c, of_reply (write_file w path data)).

Definition time_time_ : M float :=
  fun c =>
    ([], {| n_clock := S (n_clock c); n_http := n_http c;
            n_send := n_send c; n_recv := n_recv c |},
     Returned (time_time w (n_clock c))).

Definition time_sleep (seconds : float) : M unit :=
  fun c => ([ASleep seconds], c, Returned tt).

Definition requests_send (r : request) : M response :=
  fun c =>
    ([AHttp r], {| n_clock := n_clock c; n_http := S (n_http c);
                   n_send := n_send c; n_recv := n_recv c |},
     of_reply (http w (n_http c) r)).

Definition requests_get (u : string) (h : list (string * pystr)) : M response :=
  requests_send {| method := "GET"; url := u; req_headers := h;
                   req_json := None |}.

Definition requests_post (u : string) (h : list (string * pystr))
    (payload : value) : M response :=
  requests_send {| method := "POST"; url := u; req_headers := h;
                   req_json := Some payload |}.

Definition create_ssl_context : M unit :=
  fun c => ([], c, of_reply (ssl_context w)).

Definition websocket_send (message : value) : M unit :=
  fun c =>
    ([ASend message], {| n_clock := n_clock c; n_http := n_http c;
                         n_send := S (n_send c); n_recv := n_recv c |},
     of_reply (ws_send w (n_send c) message)).

(** [await asyncio.wait_for(websocket.recv(), timeout=t)]. *)
Definition wait_for_recv (t : float) : M document :=
  fun c =>
    ([ARecv t], {| n_clock := n_clock c; n_http := n_http c;
                   n_send := n_send c; n_recv := S (n_recv c) |},
     of_reply (ws_recv w (n_recv c))).

(** [async with websockets.connect(uri, additional_headers=h, ...) as
    websocket: body].  When the handshake fails nothing is to be closed;
    otherwise the connection is closed when the block is left, by [return]
    or by an exception alike. *)
Definition with_connect {A} (uri : string) (h : list (string * pystr))
    (body : M A) : M A :=
  fun c =>
    match ws_connect w with
    | Fail e => ([AConnect uri h], c, Raised e)
    | Answer _ =>
        let '(t, c', o) := body c in
        match o with
        | OutOfFuel => (AConnect uri h :: t, c', OutOfFuel)
        | _ => (AConnect uri h :: t ++ [AClose], c', o)
        end
    end.

End Operations.

(* ================================================================== *)
(** * The credential: [load_api_key] *)
(* ================================================================== *)

(** The four scripts each carry the same [load_api_key]; it is embedded
    once. *)

Definition env_path : string :=
  "/Users/user/Desktop/EnglishEar/english_ear_app/.env".

Definition OPENAI_API_KEY_eq : pystr := py "OPENAI_API_KEY=".

(** The code point of ['=']. *)
Definition equals_sign : N := 61.

(** The [for line in f] loop with its [return] inside, and the [return None]
    after it. *)
Fixpoint scan_lines (lines : list pystr) : result (option pystr) :=
  match lines with
  | [] => Ok None
  | line :: rest =>
      if PyStr.startswith line OPENAI_API_KEY_eq then
        match nth_error (PyStr.split equals_sign line) 1 with
        | Some field => Ok (Some (PyStr.strip field))
        | None => Err IndexError
        end
      else scan_lines rest
  end.

Definition load_api_key (w : world) : M (option pystr) :=
  lines <- open_read w env_path ;;
  lift (scan_lines lines).

(** [str(API_KEY)] as an f-string interpolates it, and [f'Bearer {API_KEY}']. *)
Definition str_of_key (k : option pystr) : pystr :=
  match k with
  | Some s => s
  | None => py "None"
  end.

Definition bearer (k : option pystr) : pystr := py "Bearer " ++ str_of_key k.

Definition nl : string := newline.

(** [print(f"...{API_KEY[:20]}...{API_KEY[-4:]}")]'s two interpolations. *)
Definition key_head (key : pystr) : piece := Own (PyStr.slice_to 20 key).
Definition key_tail (key : pystr) : piece := Own (PyStr.slice_last 4 key).

(** [response.headers] is a [CaseInsensitiveDict] of [requests]: a name is
    looked up by its lower case among the lower cases of the names stored.
    [headers] holds its items. *)
Definition find_header (name : pystr) (h : list (pystr * pystr)) : option pystr :=
  option_map snd
    (find (fun kv => pystr_eqb (PyStr.lower (fst kv)) (PyStr.lower name)) h).

(** [response.headers.get(name, 'N/A')] and [name in response.headers]. *)
Definition header_get (r : response) (name : string) : value :=
  match find_header (py name) (headers r) with
  | Some v => VStr v
  | None => VStr (py "N/A")
  end.

Definition header_in (r : response) (name : string) : bool :=
  match find_header (py name) (headers r) with
  | Some _ => true
  | None => false
  end.

(** [response.json()]. *)
Definition response_json (r : response) : result value := json_loads (body r).

Open Scope pstring_scope.
Open Scope Z_scope.

(* ================================================================== *)
(** * check_api_usage.py *)
(* ================================================================== *)

Module check_api_usage.
Section Script.

Variable w : world.
Variable API_KEY : option pystr.

Definition check_api_limits : M unit :=
  print [Lit (cat nl "🔍 Checking API Usage and Limits...")] ;;
  print [Lit (str_mul "=" 60)] ;;
  let url := "https://api.openai.com/v1/models/gpt-3.5-turbo" in
  let headers := [("Authorization", bearer API_KEY)] in
  try_except
    (response <- requests_get w url headers ;;
     print [Lit (cat nl "📊 API Response Status:")] ;;
     print [Lit "   Status Code: "; Fmt (VInt (status_code response))] ;;
     (if status_code response =? 200 then
        print [Lit "   ✅ API Key is valid and active"]
      else if status_code response =? 401 then
        print [Lit "   ❌ Invalid API Key"]
      else if status_code response =? 429 then
        print [Lit "   ⚠️ Rate limit or quota exceeded"] ;;
        (if header_in response "x-ratelimit-limit-requests" then
           print [Lit (cat nl "📈 Rate Limits:")] ;;
           print [Lit "   Request Limit: ";
                  Fmt (header_get response "x-ratelimit-limit-requests")] ;;
           print [Lit "   Remaining Requests: ";
                  Fmt (header_get response "x-ratelimit-remaining-requests")] ;;
           print [Lit "   Token Limit: ";
                  Fmt (header_get response "x-ratelimit-limit-tokens")] ;;
           print [Lit "   Remaining Tokens: ";
                  Fmt (header_get response "x-ratelimit-remaining-tokens")]
         else ret tt) ;;
        (match text (body response) with
         | _ :: _ =>
             error_data <- lift (json_loads (body response)) ;;
             error <- lift (PyOps.get error_data (py "error") (VDict [])) ;;
             error_msg <- lift (PyOps.get error (py "message") (VStr [])) ;;
             print [Lit (cat nl "❌ Error Details:")] ;;
             print [Lit "   "; Fmt error_msg]
         | [] => ret tt
         end)
      else ret tt) ;;
     print [Lit (cat nl "💡 Possible Reasons for Quota Exceeded:")] ;;
     print [Lit "   1. Free trial credits exhausted"] ;;
     print [Lit "   2. Monthly spending limit reached ($20)"] ;;
     print [Lit "   3. API key was used extensively in other projects"] ;;
     print [Lit "   4. Billing issue or payment method problem"] ;;
     print [Lit (cat nl "🔧 How to Fix:")] ;;
     print [Lit "   1. Check usage at: https://platform.openai.com/usage"] ;;
     print [Lit "   2. Check billing at: https://platform.openai.com/billing"] ;;
     print [Lit "   3. Increase usage limits in billing settings"] ;;
     print [Lit "   4. Add payment method if using free tier"] ;;
     print [Lit (cat nl "🧪 Testing Minimal API Request...")] ;;
     let test_url := "https://api.openai.com/v1/models" in
     test_response <- requests_get w test_url headers ;;
     (if status_code test_response =? 200 then
        models <- lift (response_json test_response) ;;
        data <- lift (PyOps.get models (py "data") (VList [])) ;;
        n <- lift (PyOps.len data) ;;
        print [Lit "   ✅ Can list models (found ";
               Fmt (VInt (Z.of_nat n)); Lit " models)"] ;;
        print [Lit "   → API key works, but may have usage limits"]
      else
        print [Lit "   ❌ Cannot even list models (Status: ";
               Fmt (VInt (status_code test_response)); Lit ")"]))
    (except_Exception
       (fun e => print [Lit "❌ Error checking API: "; FmtExn e])).

Definition analyze_api_key : M unit :=
  print [Lit (cat nl "🔑 API Key Analysis:")] ;;
  print [Lit (str_mul "=" 60)] ;;
  if negb (PyOps.truthy API_KEY) then
    print [Lit "❌ No API key found"]
  else
    match API_KEY with
    | None => raise (Builtin AttributeError)
    | Some key =>
        (if PyStr.startswith key (py "sk-proj-") then
           print [Lit "   ✅ Project-specific API key (new format)"] ;;
           print [Lit "   → This is a scoped key with specific permissions"]
         else if PyStr.startswith key (py "sk-") then
           print [Lit "   ✅ Standard API key"]
         else
           print [Lit "   ⚠️ Unusual API key format"]) ;;
        print [Lit "   Key length: ";
               Fmt (VInt (Z.of_nat (List.length key))); Lit " characters"] ;;
        (if (100 <? List.length key)%nat then
           print [Lit "   → Long key format (post-2024)"]
         else
           print [Lit "   → Standard key format"]) ;;
        print [Lit (cat nl "   Key preview: "); key_head key; Lit "...";
               key_tail key]
    end.

Definition estimate_usage : M unit :=
  print [Lit (cat nl "💰 What Could Use $20 of API Credits:")] ;;
  print [Lit (str_mul "=" 60)] ;;
  print [Lit (cat nl "📊 Estimated Usage for $20:")] ;;
  print [Lit "   • GPT-4 Turbo: ~666,000 input tokens OR ~222,000 output tokens"] ;;
  print [Lit "   • GPT-3.5 Turbo: ~20 million tokens"] ;;
  print [Lit "   • Whisper: ~3,333 minutes of audio (~55 hours)"] ;;
  print [Lit "   • TTS: ~1.3 million characters"] ;;
  print [Lit "   • DALL-E 3: ~20 images (1024x1024)"] ;;
  print [Lit (cat nl "🤔 Possible Usage Scenarios:")] ;;
  print [Lit "   1. Heavy testing with GPT-4 (lots of long conversations)"] ;;
  print [Lit "   2. Image generation with DALL-E"] ;;
  print [Lit "   3. Extensive audio processing"] ;;
  print [Lit "   4. Another app/project using the same API key"] ;;
  print [Lit "   5. Leaked API key being used by others"] ;;
  print [Lit (cat nl "⚠️ Important Notes:")] ;;
  print [Lit "   • WebSocket Realtime API attempts could consume credits"] ;;
  print [Lit "   • Failed requests still count towards rate limits"] ;;
  print [Lit "   • Some models are more expensive than others"].

Definition main : M unit :=
  print [Lit (str_mul "=" 70)] ;;
  print [Lit "🔍 OpenAI API Usage Checker"] ;;
  print [Lit "📅 "; Own (now w)] ;;
  print [Lit (str_mul "=" 70)] ;;
  if negb (PyOps.truthy API_KEY) then
    print [Lit "❌ No API key found in .env file"]
  else
    analyze_api_key ;;
    check_api_limits ;;
    estimate_usage ;;
    print [Lit (cat nl (str_mul "=" 70))] ;;
    print [Lit "📌 Recommended Actions:"] ;;
    print [Lit (str_mul "=" 70)] ;;
    print [Lit "1. Visit: https://platform.openai.com/usage"] ;;
    print [Lit "2. Check your actual usage for today and this month"] ;;
    print [Lit "3. Visit: https://platform.openai.com/billing"] ;;
    print [Lit "4. Check if $20 limit was reached"] ;;
    print [Lit "5. Consider:"] ;;
    print [Lit "   • Increasing the usage limit"] ;;
    print [Lit "   • Using GPT-3.5-turbo instead of GPT-4 for testing"] ;;
    print [Lit "   • Creating a new API key for this project only"] ;;
    print [Lit (cat nl "💡 For testing, you can:")] ;;
    print [Lit "   • Use GPT-3.5-turbo (much cheaper)"] ;;
    print [Lit "   • Set up usage alerts"] ;;
    print [Lit "   • Use playground for manual testing"].

End Script.

(** The module body: [API_KEY = load_api_key()], then [main()]. *)
Definition script (w : world) : M unit :=
  API_KEY <- load_api_key w ;;
  main w API_KEY.

End check_api_usage.

(* ================================================================== *)
(** * test_gpt35.py *)
(* ================================================================== *)

(** Float literals are read as Python reads them: the nearest binary64
    value. *)
Set Warnings "-inexact-float".

Module test_gpt35.
Section Script.

Variable w : world.
Variable API_KEY : option pystr.

Definition url : string := "https://api.openai.com/v1/chat/completions".

Definition headers : list (string * pystr) :=
  [("Authorization", bearer API_KEY);
   ("Content-Type", py "application/json")].

Definition payload : value :=
  VDict
    [(py "model", VStr (py "gpt-3.5-turbo"));
     (py "messages",
      VList
        [VDict [(py "role", VStr (py "system"));
                (py "content",
                 VStr (py "You are a helpful English tutor. Keep responses brief."))];
         VDict [(py "role", VStr (py "user"));
                (py "content", VStr (py "Hello!"))]]);
     (py "temperature", VFloat 0.7);
     (py "max_tokens", VInt 50)].

(** The statements of the module after [API_KEY = load_api_key()]. *)
Definition body_after_key : M unit :=
  print [Lit "🧪 Testing GPT-3.5-turbo (Cheaper Model)"] ;;
  print [Lit (str_mul "=" 50)] ;;
  try_except
    (response <- requests_post w url headers payload ;;
     if status_code response =? 200 then
       data <- lift (response_json response) ;;
       choices <- lift (PyOps.getitem data (py "choices")) ;;
       choice <- lift (PyOps.getindex choices 0) ;;
       message <- lift (PyOps.getitem choice (py "message")) ;;
       ai_response <- lift (PyOps.getitem message (py "content")) ;;
       usage <- lift (PyOps.getitem data (py "usage")) ;;
       tokens <- lift (PyOps.getitem usage (py "total_tokens")) ;;
       print [Lit "✅ Success with GPT-3.5-turbo!"] ;;
       print [Lit "Response: "; Fmt ai_response] ;;
       print [Lit "Tokens used: "; Fmt tokens] ;;
       cost <- lift (PyOps.mul_float tokens 0.0000015) ;;
       print [Lit "Estimated cost: $"; FmtSpec (VFloat cost) ".6f"]
     else
       print [Lit "❌ Failed: "; Fmt (VInt (status_code response))] ;;
       error <- lift (response_json response) ;;
       err <- lift (PyOps.getitem error (py "error")) ;;
       msg <- lift (PyOps.getitem err (py "message")) ;;
       print [Lit "Error: "; Fmt msg])
    (except_Exception (fun e => print [Lit "Error: "; FmtExn e])).

End Script.

Definition script (w : world) : M unit :=
  API_KEY <- load_api_key w ;;
  body_after_key w API_KEY.

End test_gpt35.

(* ================================================================== *)
(** * test_api.py *)
(* ================================================================== *)

Module test_api.
Section Script.

Variable w : world.
Variable API_KEY : option pystr.

Definition HEADERS : list (string * pystr) :=
  [("Authorization", bearer API_KEY);
   ("Content-Type", py "application/json")].

(** [[m['id'] for m in models]]. *)
Fixpoint ids_of (models : list value) : result (list value) :=
  match models with
  | [] => Ok []
  | m :: rest =>
      result_bind (PyOps.getitem m (py "id")) (fun id =>
      result_bind (ids_of rest) (fun ids => Ok (id :: ids)))
  end.

Definition test_connection : M bool :=
  print [Lit (cat nl "🔍 Testing API Connection...")] ;;
  let url := "https://api.openai.com/v1/models" in
  try_except
    (response <- requests_get w url [("Authorization", bearer API_KEY)] ;;
     if status_code response =? 200 then
       print [Lit "✅ API Connection successful"] ;;
       json <- lift (response_json response) ;;
       models <- lift (PyOps.getitem json (py "data")) ;;
       n <- lift (PyOps.len models) ;;
       print [Lit "   Available models: "; Fmt (VInt (Z.of_nat n))] ;;
       items <- lift (PyOps.iter models) ;;
       model_ids <- lift (ids_of items) ;;
       (if PyOps.contains model_ids (py "whisper-1") then
          print [Lit "   ✅ Whisper model available"]
        else ret tt) ;;
       (if PyOps.contains model_ids (py "gpt-4-turbo-preview")
           || PyOps.contains model_ids (py "gpt-4") then
          print [Lit "   ✅ GPT-4 model available"]
        else ret tt) ;;
       (if PyOps.contains model_ids (py "tts-1-hd")
           || PyOps.contains model_ids (py "tts-1") then
          print [Lit "   ✅ TTS model available"]
        else ret tt) ;;
       ret true
     else
       print [Lit "❌ API Connection failed: ";
              Fmt (VInt (status_code response))] ;;
       print [Lit "   Response: "; Fmt (VStr (text (body response)))] ;;
       ret false)
    (except_Exception
       (fun e => print [Lit "❌ Connection error: "; FmtExn e] ;; ret false)).

Definition chat_payload : value :=
  VDict
    [(py "model", VStr (py "gpt-4-turbo-preview"));
     (py "messages",
      VList
        [VDict [(py "role", VStr (py "system"));
                (py "content",
                 VStr (py "You are an English conversation tutor. Be friendly and helpful."))];
         VDict [(py "role", VStr (py "user"));
                (py "content", VStr (py "Hello, how are you today?"))]]);
     (py "temperature", VFloat 0.8);
     (py "max_tokens", VInt 150)].

Definition test_chat_completion : M bool :=
  print [Lit (cat nl "💬 Testing Chat Completion...")] ;;
  let url := "https://api.openai.com/v1/chat/completions" in
  try_except
    (start_time <- time_time_ w ;;
     response <- requests_post w url HEADERS chat_payload ;;
     t <- time_time_ w ;;
     let elapsed := (t - start_time)%float in
     if status_code response =? 200 then
       data <- lift (response_json response) ;;
       choices <- lift (PyOps.getitem data (py "choices")) ;;
       choice <- lift (PyOps.getindex choices 0) ;;
       message <- lift (PyOps.getitem choice (py "message")) ;;
       ai_response <- lift (PyOps.getitem message (py "content")) ;;
       usage <- lift (PyOps.get data (py "usage") (VDict [])) ;;
       tokens_used <- lift (PyOps.get usage (py "total_tokens") (VInt 0)) ;;
       print [Lit "✅ Chat completion successful"] ;;
       print [Lit "   Response time: "; FmtSpec (VFloat elapsed) ".2f";
              Lit "s"] ;;
       print [Lit "   Tokens used: "; Fmt tokens_used] ;;
       head <- lift (PyOps.slice_to 100 ai_response) ;;
       print [Lit "   AI Response: "; Fmt head; Lit "..."] ;;
       ret true
     else
       print [Lit "❌ Chat completion failed: ";
              Fmt (VInt (status_code response))] ;;
       print [Lit "   Response: "; Fmt (VStr (text (body response)))] ;;
       ret false)
    (except_Exception
       (fun e => print [Lit "❌ Chat error: "; FmtExn e] ;; ret false)).

Definition test_whisper : M bool :=
  print [Lit (cat nl "🎤 Testing Whisper Speech-to-Text...")] ;;
  print [Lit "   Creating test audio..."] ;;
  print [Lit "   ⚠️ Whisper test requires actual audio file"] ;;
  print [Lit "   In production, this would transcribe audio to text"] ;;
  ret true.

Definition tts_payload : value :=
  VDict
    [(py "model", VStr (py "tts-1-hd"));
     (py "input",
      VStr (py "Hello! This is a test of the text to speech system."));
     (py "voice", VStr (py "nova"))].

Definition output_path : string := "/tmp/tts_test.mp3".

Definition test_tts : M bool :=
  print [Lit (cat nl "🔊 Testing Text-to-Speech...")] ;;
  let url := "https://api.openai.com/v1/audio/speech" in
  try_except
    (start_time <- time_time_ w ;;
     response <- requests_post w url HEADERS tts_payload ;;
     t <- time_time_ w ;;
     let elapsed := (t - start_time)%float in
     if status_code response =? 200 then
       let audio_size := List.length (content response) in
       print [Lit "✅ TTS generation successful"] ;;
       print [Lit "   Response time: "; FmtSpec (VFloat elapsed) ".2f";
              Lit "s"] ;;
       print [Lit "   Audio size: ";
              FmtSpec (VInt (Z.of_nat audio_size)) ","; Lit " bytes"] ;;
       write_bytes w output_path (content response) ;;
       print [Lit "   Audio saved to: "; Lit output_path] ;;
       ret true
     else
       print [Lit "❌ TTS generation failed: ";
              Fmt (VInt (status_code response))] ;;
       print [Lit "   Response: "; Fmt (VStr (text (body response)))] ;;
       ret false)
    (except_Exception
       (fun e => print [Lit "❌ TTS error: "; FmtExn e] ;; ret false)).

Definition steps : list (string * string) :=
  [("1. User speaks", "Simulating user speech input");
   ("2. Convert to text", "Using Whisper API");
   ("3. Process with GPT-4", "Generating response");
   ("4. Convert to speech", "Using TTS API");
   ("5. Play response", "Audio playback ready")].

(** [for step, description in steps: ...]. *)
Fixpoint for_steps (l : list (string * string)) : M unit :=
  match l with
  | [] => ret tt
  | (step, description) :: rest =>
      print [Lit nl; Lit step] ;;
      print [Lit "   "; Lit description] ;;
      time_sleep 0.5 ;;
      print [Lit "   ✅ Completed"] ;;
      for_steps rest
  end.

Definition test_complete_flow : M bool :=
  print [Lit (cat nl "🔄 Testing Complete Conversation Flow...")] ;;
  print [Lit (str_mul "=" 50)] ;;
  for_steps steps ;;
  print [Lit (cat nl (str_mul "=" 50))] ;;
  print [Lit "✅ Complete flow test finished"] ;;
  ret true.

Definition calculate_costs : M unit :=
  print [Lit (cat nl "💰 Estimated API Costs (per 1000 conversations):")] ;;
  print [Lit (str_mul "=" 50)] ;;
  let avg_input_tokens := 50%float in
  let avg_output_tokens := 100%float in
  let avg_audio_seconds := 5%float in
  let gpt4_input_price := 0.01%float in
  let gpt4_output_price := 0.03%float in
  let whisper_price := 0.006%float in
  let tts_price := 0.015%float in
  let chat_cost :=
    ((avg_input_tokens * gpt4_input_price
      + avg_output_tokens * gpt4_output_price) / 1000)%float in
  let whisper_cost := ((avg_audio_seconds / 60) * whisper_price)%float in
  let tts_cost := ((avg_output_tokens * 5) * tts_price / 1000)%float in
  let total_per_conversation := (chat_cost + whisper_cost + tts_cost)%float in
  let total_per_1000 := (total_per_conversation * 1000)%float in
  print [Lit "   GPT-4 Chat: $"; FmtSpec (VFloat (chat_cost * 1000)) ".2f"] ;;
  print [Lit "   Whisper STT: $";
         FmtSpec (VFloat (whisper_cost * 1000)) ".2f"] ;;
  print [Lit "   TTS Generation: $";
         FmtSpec (VFloat (tts_cost * 1000)) ".2f"] ;;
  print [Lit "   ─────────────────────"] ;;
  print [Lit "   Total: $"; FmtSpec (VFloat total_per_1000) ".2f"] ;;
  print [Lit "   Per conversation: $";
         FmtSpec (VFloat total_per_conversation) ".4f"].

(** [sum(results.values())] over the booleans of the results. *)
Definition total_passed_of (results : list (string * bool)) : nat :=
  List.length (filter (fun r => snd r) results).

(** [(total_passed / total_tests) * 100]: the true division of two small
    integers is the division of the two as floats. *)
Definition success_rate_of (total_passed total_tests : nat) : float :=
  (PyOps.to_float (Z.of_nat total_passed)
   / PyOps.to_float (Z.of_nat total_tests) * 100)%float.

(** [for test_name, result in results.items(): ...]. *)
Fixpoint for_results (l : list (string * bool)) : M unit :=
  match l with
  | [] => ret tt
  | (test_name, result) :: rest =>
      let status := if result then "✅ PASS" else "❌ FAIL" in
      print [Lit "   "; Lit test_name; Lit ": "; Lit status] ;;
      for_results rest
  end.

(** The line [Total: p/n passed (r%)] of the summary. *)
Definition total_line (total_passed total_tests : nat) (rate : float)
  : list piece :=
  [Lit (cat nl "   Total: "); Fmt (VInt (Z.of_nat total_passed)); Lit "/";
   Fmt (VInt (Z.of_nat total_tests)); Lit " passed (";
   FmtSpec (VFloat rate) ".0f"; Lit "%)"].

Definition main : M unit :=
  print [Lit (str_mul "=" 60)] ;;
  print [Lit "🚀 EnglishEar API Test Suite"] ;;
  print [Lit "📅 "; Own (now w)] ;;
  print [Lit (str_mul "=" 60)] ;;
  if negb (PyOps.truthy API_KEY) then
    print [Lit "❌ API key not found in .env file"]
  else
    match API_KEY with
    | None => raise (Builtin TypeError)
    | Some key =>
        print [Lit "🔑 API Key: "; key_head key; Lit "..."; key_tail key] ;;
        r1 <- test_connection ;;
        r2 <- test_chat_completion ;;
        r3 <- test_whisper ;;
        r4 <- test_tts ;;
        r5 <- test_complete_flow ;;
        let results :=
          [("Connection", r1); ("Chat Completion", r2); ("Whisper STT", r3);
           ("TTS Generation", r4); ("Complete Flow", r5)] in
        calculate_costs ;;
        print [Lit (cat nl (str_mul "=" 60))] ;;
        print [Lit "📊 Test Summary"] ;;
        print [Lit (str_mul "=" 60)] ;;
        for_results results ;;
        let total_passed := total_passed_of results in
        let total_tests := List.length results in
        let success_rate := success_rate_of total_passed total_tests in
        print (total_line total_passed total_tests success_rate) ;;
        if (success_rate =? 100)%float then
          print [Lit (cat nl "🎉 All tests passed! The app is ready to use.")]
        else if (80 <=? success_rate)%float then
          print [Lit (cat nl "⚠️ Most tests passed. Check failed tests.")]
        else
          print [Lit (cat nl "❌ Multiple tests failed. Please check your API configuration.")]
    end.

End Script.

Definition script (w : world) : M unit :=
  API_KEY <- load_api_key w ;;
  main w API_KEY.

End test_api.

(* ================================================================== *)
(** * test_realtime_api.py *)
(* ================================================================== *)

Module test_realtime_api.
Section Script.

Variable w : world.
Variable API_KEY : option pystr.

Definition uri : string :=
  "wss://api.openai.com/v1/realtime?model=gpt-4o-realtime-preview-2024-12-17".

Definition headers : list (string * pystr) :=
  [("Authorization", bearer API_KEY); ("OpenAI-Beta", py "realtime=v1")].

Definition session_update : value :=
  VDict
    [(py "type", VStr (py "session.update"));
     (py "session",
      VDict
        [(py "modalities", VList [VStr (py "text"); VStr (py "audio")]);
         (py "instructions", VStr (py "You are a helpful assistant."));
         (py "voice", VStr (py "nova"));
         (py "input_audio_format", VStr (py "pcm16"));
         (py "output_audio_format", VStr (py "pcm16"));
         (py "temperature", VFloat 0.8)])].

Definition test_message : value :=
  VDict
    [(py "type", VStr (py "conversation.item.create"));
     (py "item",
      VDict
        [(py "type", VStr (py "message"));
         (py "role", VStr (py "user"));
         (py "content",
          VList [VDict [(py "type", VStr (py "text"));
                        (py "text", VStr (py "Hello, this is a test."))]])])].

Definition create_response : value :=
  VDict [(py "type", VStr (py "response.create"))].

(** The [while True] loop, unrolled at most [fuel] times.  It is left by
    [break] on a [response.done] event, or by an exception. *)
Fixpoint response_loop (fuel : nat) : M unit :=
  match fuel with
  | O => fun c => ([], c, OutOfFuel)
  | S fuel' =>
      response <- wait_for_recv w 10 ;;
      event <- lift (json_loads response) ;;
      ty <- lift (PyOps.getitem event (py "type")) ;;
      if PyOps.eq_str ty (py "response.done") then
        print [Lit "✅ AI response completed"]
      else
        ty' <- lift (PyOps.getitem event (py "type")) ;;
        (if PyOps.eq_str ty' (py "response.text.delta") then
           delta <- lift (PyOps.get event (py "delta") (VStr [])) ;;
           print_end [Lit "   AI: "; Fmt delta] ""
         else ret tt) ;;
        response_loop fuel'
  end.

(** The three [except] clauses, in the order of the source. *)
Definition handlers (e : exn) : option (M bool) :=
  match e with
  | InvalidStatusCode status_code =>
      Some
        (print [Lit (cat nl "❌ WebSocket connection failed with status code: ");
                Fmt (VInt status_code)] ;;
         (if status_code =? 401 then
            print [Lit "   → Invalid API key"]
          else if status_code =? 403 then
            print [Lit "   → API key doesn't have Realtime API access"]
          else if status_code =? 429 then
            print [Lit "   → Rate limit exceeded or quota exhausted"]
          else if status_code =? 503 then
            print [Lit "   → Service temporarily unavailable"]
          else ret tt) ;;
         ret false)
  | AsyncioTimeoutError =>
      Some (print [Lit (cat nl "⏱️ Connection timed out")] ;; ret false)
  | _ =>
      except_Exception
        (fun e => print [Lit (cat nl "❌ Unexpected error: "); FmtExn e] ;;
                  ret false) e
  end.

Definition test_realtime_connection (fuel : nat) : M bool :=
  print [Lit (cat nl "🔍 Testing OpenAI Realtime API Access...")] ;;
  print [Lit (str_mul "=" 60)] ;;
  if negb (PyOps.truthy API_KEY) then
    print [Lit "❌ No API key found in .env file"] ;;
    ret false
  else
    match API_KEY with
    | None => raise (Builtin TypeError)
    | Some key =>
        print [Lit "🔑 Using API key: "; key_head key; Lit "...";
               key_tail key] ;;
        try_except
          (print [Lit (cat nl "📡 Attempting WebSocket connection...")] ;;
           create_ssl_context w ;;
           with_connect w uri headers
             (print [Lit "✅ WebSocket connected successfully!"] ;;
              websocket_send w session_update ;;
              print [Lit "📤 Sent session configuration"] ;;
              response <- wait_for_recv w 5 ;;
              event <- lift (json_loads response) ;;
              ty <- lift (PyOps.getitem event (py "type")) ;;
              print [Lit "📥 Received event: "; Fmt ty] ;;
              ty1 <- lift (PyOps.getitem event (py "type")) ;;
              if PyOps.eq_str ty1 (py "error") then
                error <- lift (PyOps.get event (py "error") (VDict [])) ;;
                print [Lit (cat nl "❌ Error from server:")] ;;
                code <- lift (PyOps.get error (py "code") VNone) ;;
                print [Lit "   Code: "; Fmt code] ;;
                message <- lift (PyOps.get error (py "message") VNone) ;;
                print [Lit "   Message: "; Fmt message] ;;
                code1 <- lift (PyOps.get error (py "code") VNone) ;;
                (if PyOps.eq_str code1 (py "invalid_api_key") then
                   print [Lit (cat nl "⚠️ API key is invalid")]
                 else
                   code2 <- lift (PyOps.get error (py "code") VNone) ;;
                   if PyOps.eq_str code2 (py "insufficient_quota") then
                     print [Lit (cat nl "⚠️ Insufficient quota - need to add credits")]
                   else
                     code3 <- lift (PyOps.get error (py "code") VNone) ;;
                     if PyOps.eq_str code3 (py "unauthorized") then
                       print [Lit (cat nl "⚠️ API key doesn't have Realtime API access")]
                     else ret tt) ;;
                ret false
              else
                ty2 <- lift (PyOps.getitem event (py "type")) ;;
                if PyOps.eq_str ty2 (py "session.created") then
                  session <- lift (PyOps.get event (py "session") (VDict [])) ;;
                  print [Lit (cat nl "✅ Session created successfully!")] ;;
                  id <- lift (PyOps.get session (py "id") VNone) ;;
                  print [Lit "   Session ID: "; Fmt id] ;;
                  model <- lift (PyOps.get session (py "model") VNone) ;;
                  print [Lit "   Model: "; Fmt model] ;;
                  websocket_send w test_message ;;
                  print [Lit (cat nl "📤 Sent test message")] ;;
                  websocket_send w create_response ;;
                  print [Lit "⏳ Waiting for AI response..."] ;;
                  response_loop fuel ;;
                  ret true
                else
                  ty3 <- lift (PyOps.getitem event (py "type")) ;;
                  print [Lit "Unexpected event type: "; Fmt ty3] ;;
                  ret false))
          handlers
    end.

Definition analyze_results (has_access : bool) : M unit :=
  print [Lit (cat nl (str_mul "=" 60))] ;;
  print [Lit "📊 Analysis Results"] ;;
  print [Lit (str_mul "=" 60)] ;;
  if has_access then
    print [Lit (cat nl "🎉 SUCCESS: Your API key has Realtime API access!")] ;;
    print [Lit (cat nl "✅ You can:")] ;;
    print [Lit "   • Use WebSocket streaming for real-time conversations"] ;;
    print [Lit "   • Process audio in real-time with low latency"] ;;
    print [Lit "   • Build voice-enabled applications"] ;;
    print [Lit (cat nl "💰 Pricing:")] ;;
    print [Lit "   • Audio input: $0.06/minute"] ;;
    print [Lit "   • Audio output: $0.24/minute"] ;;
    print [Lit "   • Text: Standard GPT-4 rates"]
  else
    print [Lit (cat nl "❌ FAILED: Cannot access Realtime API")] ;;
    print [Lit (cat nl "🔧 How to fix:")] ;;
    print [Lit "   1. Check your credits at: https://platform.openai.com/usage"] ;;
    print [Lit "   2. Add credits (minimum $5): https://platform.openai.com/billing"] ;;
    print [Lit "   3. Verify API key is valid"] ;;
    print [Lit "   4. Make sure you're using the latest API key"] ;;
    print [Lit (cat nl "💡 Alternative:")] ;;
    print [Lit "   Use HTTP-based conversation with:"] ;;
    print [Lit "   • Whisper API for speech-to-text"] ;;
    print [Lit "   • GPT-3.5/4 for chat completions"] ;;
    print [Lit "   • TTS API for text-to-speech"].

Definition main (fuel : nat) : M unit :=
  print [Lit (str_mul "=" 70)] ;;
  print [Lit "🚀 OpenAI Realtime API Access Test"] ;;
  print [Lit (str_mul "=" 70)] ;;
  has_access <- test_realtime_connection fuel ;;
  analyze_results has_access ;;
  print [Lit (cat nl (str_mul "=" 70))] ;;
  (if has_access then
     print [Lit "✅ Realtime API is ready to use in your Flutter app!"]
   else
     print [Lit "⚠️ Using HTTP fallback mode in your Flutter app"]) ;;
  print [Lit (str_mul "=" 70)].

End Script.

Definition script (w : world) (fuel : nat) : M unit :=
  API_KEY <- load_api_key w ;;
  main w API_KEY fuel.

End test_realtime_api.

(* ================================================================== *)
(** * Reading a trace *)
(* ================================================================== *)

Definition is_print (a : action) : bool :=
  match a with
  | APrint _ _ => true
  | _ => false
  end.

(** Everything a run did apart from printing. *)
Definition effects (t : list action) : list action :=
  filter (fun a => negb (is_print a)) t.

(** The lines handed to [print], in order. *)
Definition printed (t : list action) : list (list piece) :=
  flat_map (fun a => match a with APrint l _ => [l] | _ => [] end) t.

(** The line is the literal [s] and nothing else. *)
Definition is_lit_line (s : string) (l : list piece) : bool :=
  match l with
  | [Lit s'] => PrimString.eqb s s'
  | _ => false
  end.

Definition prints_lit (s : string) (t : list action) : bool :=
  existsb (is_lit_line s) (printed t).

(** The HTTP requests and WebSocket handshakes of a trace, each as the pair
    of its method and address. *)
Definition attempts (t : list action) : list (string * string) :=
  flat_map (fun a => match a with
                     | AHttp r => [(method r, url r)]
                     | AConnect u _ => [("CONNECT", u)]
                     | _ => []
                     end) t.

(** The files opened for reading, the files written, the exit calls. *)
Definition opened (t : list action) : list string :=
  flat_map (fun a => match a with AOpenRead p => [p] | _ => [] end) t.

Definition written (t : list action) : list (string * list N) :=
  flat_map (fun a => match a with AWriteFile p d => [(p, d)] | _ => [] end) t.

Definition exits (t : list action) : list Z :=
  flat_map (fun a => match a with AExit z => [z] | _ => [] end) t.

(** The [Authorization] headers sent, over HTTP or in the handshake. *)
Definition authorizations (t : list action) : list pystr :=
  flat_map (fun a =>
              let hs := match a with
                        | AHttp r => req_headers r
                        | AConnect _ h => h
                        | _ => []
                        end in
              map snd (filter (fun kv => PrimString.eqb (fst kv) "Authorization") hs))
           t.

(** The WebSocket traffic: what was sent, and each read with its timeout. *)
Definition ws_traffic (t : list action) : list action :=
  filter (fun a => match a with ASend _ | ARecv _ => true | _ => false end) t.

Definition read_timeouts (t : list action) : list float :=
  flat_map (fun a => match a with ARecv x => [x] | _ => [] end) t.

(** The last thing a run did, the closing of the connection apart, was to
    print. *)
Fixpoint reported_rev (r : list action) : bool :=
  match r with
  | APrint _ _ :: _ => true
  | AClose :: r' => reported_rev r'
  | _ => false
  end.

Definition reported (t : list action) : bool := reported_rev (rev t).

(** Every exception the outside world raises is an [Exception]: a network
    error, a refused handshake, a timeout, a failed write; not an interrupt
    of the process. *)
Record raises_Exception_only (w : world) : Prop := {
  roe_http : forall n r e, http w n r = Fail e -> is_Exception e = true;
  roe_ssl : forall e, ssl_context w = Fail e -> is_Exception e = true;
  roe_connect : forall e, ws_connect w = Fail e -> is_Exception e = true;
  roe_send : forall n m e, ws_send w n m = Fail e -> is_Exception e = true;
  roe_recv : forall n e, ws_recv w n = Fail e -> is_Exception e = true;
  roe_write : forall p d e, write_file w p d = Fail e -> is_Exception e = true
}.

(* ================================================================== *)
(** * Reading a run *)
(* ================================================================== *)

(** [wp m Q c]: the run of [m] from [c] satisfies [Q]. *)
Definition wp {A} (m : M A)
    (Q : list action -> counters -> outcome A -> Prop) (c : counters) : Prop :=
  Q (acts (m c)) (final (m c)) (out (m c)).

Definition bump_clock (c : counters) : counters :=
  {| n_clock := S (n_clock c); n_http := n_http c;
     n_send := n_send c; n_recv := n_recv c |}.

Definition bump_http (c : counters) : counters :=
  {| n_clock := n_clock c; n_http := S (n_http c);
     n_send := n_send c; n_recv := n_recv c |}.

Definition bump_send (c : counters) : counters :=
  {| n_clock := n_clock c; n_http := n_http c;
     n_send := S (n_send c); n_recv := n_recv c |}.

Definition bump_recv (c : counters) : counters :=
  {| n_clock := n_clock c; n_http := n_http c;
     n_send := n_send c; n_recv := S (n_recv c) |}.

(** The exception was raised by the outside world, in an operation of a
    check. *)
Definition world_raised (w : world) (e : exn) : Prop :=
  (exists n r, http w n r = Fail e)
  \/ ssl_context w = Fail e
  \/ ws_connect w = Fail e
  \/ (exists n m, ws_send w n m = Fail e)
  \/ (exists n, ws_recv w n = Fail e)
  \/ (exists p d, write_file w p d = Fail e).

(** How a check may end: it returns with a printed line as its last act, or
    an exception that is not an [Exception], raised by the outside world,
    passes through its [except] clauses. *)
Definition settled {A} (w : world) (t : list action) (o : outcome A) : Prop :=
  match o with
  | Returned _ => reported t = true
  | Raised e => is_Exception e = false /\ world_raised w e
  | OutOfFuel => False
  end.

(** What every [main] keeps to: it opens no file and never exits, every
    [Authorization] header carries the one credential, and no request or
    handshake is made twice. *)
Definition tidy (key : option pystr) (t : list action) : Prop :=
  opened t = [] /\ exits t = []
  /\ Forall (eq (bearer key)) (authorizations t)
  /\ NoDup (attempts t).

(** What [load_api_key] yields in a world: it depends on the file alone. *)
Definition credential (w : world) : outcome (option pystr) :=
  out (load_api_key w start).

(** What every script keeps to. *)
Definition script_tidy (w : world) (t : list action) : Prop :=
  opened t = [env_path] /\ exits t = []
  /\ Forall (fun a => exists key, credential w = Returned key /\ a = bearer key)
            (authorizations t)
  /\ NoDup (attempts t).


(** The credential was read once, from the [.env], and every
    [Authorization] header sent carries what [load_api_key] returned. *)
Definition credential_read_once (w : world) (t : list action) : Prop :=
  opened t = [env_path]
  /\ Forall (fun a => exists key, credential w = Returned key /\ a = bearer key)
            (authorizations t).

(* ================================================================== *)
(** * The requests of the scripts *)
(* ================================================================== *)

Section Requests.

Variable w : world.
Variable key : option pystr.

Definition model_url : string :=
"https://api.openai.com/v1/models/gpt-3.5-turbo".

Definition models_url : string := "https://api.openai.com/v1/models".

(** The two requests of [check_api_limits]. *)
Definition model_request : request :=
{| method := "GET"; url := model_url;
   req_headers := [("Authorization", bearer key)]; req_json := None |}.

Definition models_request : request :=
{| method := "GET"; url := models_url;
   req_headers := [("Authorization", bearer key)]; req_json := None |}.

Definition valid_line : string := "   ✅ API Key is valid and active".

Definition invalid_line : string := "   ❌ Invalid API Key".

Definition rate_line : string := "   ⚠️ Rate limit or quota exceeded".

(** How many of the three canned lines a trace holds. *)
Definition canned_lines (t : list action) : nat :=
List.length (filter (fun s => prints_lit s t)
                    [valid_line; invalid_line; rate_line]).

Definition gpt35_request : request :=
{| method := "POST"; url := test_gpt35.url;
   req_headers := test_gpt35.headers key;
   req_json := Some test_gpt35.payload |}.

Definition connection_request : request :=
{| method := "GET"; url := "https://api.openai.com/v1/models";
   req_headers := [("Authorization", bearer key)]; req_json := None |}.

Definition chat_request : request :=
{| method := "POST"; url := "https://api.openai.com/v1/chat/completions";
   req_headers := test_api.HEADERS key;
   req_json := Some test_api.chat_payload |}.

Definition tts_request : request :=
{| method := "POST"; url := "https://api.openai.com/v1/audio/speech";
   req_headers := test_api.HEADERS key;
   req_json := Some test_api.tts_payload |}.

(** The audio file [test_tts] writes when request number [n] is its own:
  the body of the answer, if the answer came with status 200. *)
Definition tts_file (n : nat) : list (string * list N) :=
match http w n tts_request with
| Answer r =>
    if status_code r =? 200 then [(test_api.output_path, content r)]
    else []
| Fail _ => []
end.

(** The results of the five checks when the three that call the service
  came out as [r1], [r2] and [r4]. *)
Definition results_of (r1 r2 r4 : bool) : list (string * bool) :=
[("Connection", r1); ("Chat Completion", r2); ("Whisper STT", true);
 ("TTS Generation", r4); ("Complete Flow", true)].

Definition summary_line (r1 r2 r4 : bool) : action :=
let k := test_api.total_passed_of (results_of r1 r2 r4) in
APrint (test_api.total_line k 5 (test_api.success_rate_of k 5)) newline.

End Requests.

(* ================================================================== *)
(** * The realtime exchange *)
(* ================================================================== *)

(** [d.get(k)] for the entries [d] of an object: [None] when [k] is not
    among them. *)
Definition dict_get (d : list (pystr * value)) (k : pystr) : value :=
  match PyOps.lookup k d with
  | Some x => x
  | None => VNone
  end.

(** [event['type']] of a received message, as the loop computes it. *)
Definition event_type (d : document) : result value :=
  result_bind (json_loads d) (fun event => PyOps.getitem event (py "type")).

(** The read delivered a [response.done] event. *)
Definition is_done (r : reply document) : bool :=
  match r with
  | Answer d =>
      match event_type d with
      | Ok ty => PyOps.eq_str ty (py "response.done")
      | Err _ => false
      end
  | Fail _ => false
  end.

(** The read lets the loop go on: a message arrived in time, it is JSON with
    a ['type'], the type is not [response.done], and when it is
    [response.text.delta] the text of the delta can be printed. *)
Definition goes_on (r : reply document) : bool :=
  match r with
  | Answer d =>
      match json_loads d with
      | Ok event =>
          match PyOps.getitem event (py "type") with
          | Ok ty =>
              negb (PyOps.eq_str ty (py "response.done"))
              && (if PyOps.eq_str ty (py "response.text.delta") then
                    match PyOps.get event (py "delta") (VStr []) with
                    | Ok delta => encodable delta
                    | Err _ => false
                    end
                  else true)
          | Err _ => false
          end
      | Err _ => false
      end
  | Fail _ => false
  end.

Section Exchange.

Variable w : world.

(** The [k] reads from read number [first] on all let the loop go on. *)
Definition go_on_until (first k : nat) : Prop :=
forall i, (i < k)%nat -> goes_on (ws_recv w (first + i)) = true.

(** How a run of the loop with [fuel] iterations at hand ends: after [k]
  reads, each with a timeout of 10 seconds. *)
Definition loop_post (fuel : nat) (c : counters)
  (t : list action) (c' : counters) (o : outcome unit) : Prop :=
exists k,
  effects t = repeat (ARecv 10) k
  /\ match o with
     | OutOfFuel => k = fuel /\ go_on_until (n_recv c) k
     | Returned _ =>
         exists j, k = S j /\ go_on_until (n_recv c) j
                   /\ is_done (ws_recv w (n_recv c + j)) = true
                   /\ reported t = true
     | Raised e =>
         exists j, k = S j /\ go_on_until (n_recv c) j
                   /\ goes_on (ws_recv w (n_recv c + j)) = false
                   /\ is_done (ws_recv w (n_recv c + j)) = false
                   /\ (is_Exception e = false -> world_raised w e)
     end.

End Exchange.

(** The messages of a whole exchange, in order: the session update and the
    read of the first reply, the two follow-up messages, and [k] reads of
    the response loop. *)
Definition exchange (k : nat) : list action :=
  [ASend test_realtime_api.session_update; ARecv 5;
   ASend test_realtime_api.test_message;
   ASend test_realtime_api.create_response]
  ++ repeat (ARecv 10) k.

(** Where an exchange may break off. *)
Inductive exchange_prefix : list action -> Prop :=
| ep_update : exchange_prefix [ASend test_realtime_api.session_update]
| ep_reply :
    exchange_prefix [ASend test_realtime_api.session_update; ARecv 5]
| ep_message :
    exchange_prefix [ASend test_realtime_api.session_update; ARecv 5;
                     ASend test_realtime_api.test_message]
| ep_loop k : exchange_prefix (exchange k).

Definition handshake (key : option pystr) : action :=
  AConnect test_realtime_api.uri (test_realtime_api.headers key).

(** Everything [test_realtime_connection] does apart from printing. *)
Inductive realtime_effects (key : option pystr) : list action -> Prop :=
| re_none : realtime_effects key []
| re_refused : realtime_effects key [handshake key]
| re_closed body :
    exchange_prefix body ->
    realtime_effects key (handshake key :: body ++ [AClose])
| re_open k : realtime_effects key (handshake key :: exchange k).

Definition realtime_post (w : world) (key : option pystr) (fuel : nat)
    (c : counters) (t : list action) (c' : counters) (o : outcome bool) : Prop :=
  realtime_effects key (effects t)
  /\ match o with
     | Returned _ => reported t = true
     | Raised e => is_Exception e = false /\ world_raised w e
     | OutOfFuel => go_on_until w (S (n_recv c)) fuel
     end.

Definition opening (key : option pystr) : list action :=
  [handshake key; ASend test_realtime_api.session_update; ARecv 5;
   ASend test_realtime_api.test_message;
   ASend test_realtime_api.create_response].

(** The read timeouts of a run: none, or 5 seconds for the first read and 10
    seconds for every later one. *)
Definition timeouts_ok (l : list float) : Prop :=
  l = [] \/ exists k, l = 5%float :: repeat 10%float k.

(* ================================================================== *)
(** * Worlds to run the scripts in *)
(* ================================================================== *)

Definition no_body : document := {| text := []; parsed := None |}.

(** A machine with the given [.env] and no network: every request fails with
    a connection error, the handshake is refused, nothing is received. *)
Definition offline (file : pystr) : world :=
  {| env_file := Answer file;
     now := py "2024-01-01 00:00:00";
     time_time := fun _ => 0%float;
     http := fun _ _ => Fail (OtherException "ConnectionError");
     ssl_context := Answer tt;
     ws_connect := Fail (InvalidStatusCode 401);
     ws_send := fun _ _ => Answer tt;
     ws_recv := fun _ => Fail AsyncioTimeoutError;
     write_file := fun _ _ => Answer tt |}.

(** A service that answers every request with the same status and body,
    accepts the handshake and every message, and sends the given messages. *)
Definition service (file : pystr) (status : Z) (audio : list N)
    (messages : nat -> reply document) : world :=
  {| env_file := Answer file;
     now := py "2024-01-01 00:00:00";
     time_time := fun _ => 0%float;
     http := fun _ _ =>
       Answer {| status_code := status; body := no_body; content := audio;
                 headers := [] |};
     ssl_context := Answer tt;
     ws_connect := Answer tt;
     ws_send := fun _ _ => Answer tt;
     ws_recv := messages;
     write_file := fun _ _ => Answer tt |}.

(** An [.env] with one line, [OPENAI_API_KEY=sk-test]. *)
Definition env_sk_test : pystr := py "OPENAI_API_KEY=sk-test" ++ [10%N].

(** Three bytes standing for the audio the service returns. *)
Definition audio : list N := [73; 68; 51]%N.

(** A message with the given JSON reading.  The scripts look at a WebSocket
    message through [json.loads] alone, so its text is left empty. *)
Definition message (v : value) : document := {| text := []; parsed := Some v |}.

Definition delta_event : document :=
  message (VDict [(py "type", VStr (py "response.text.delta"));
                  (py "delta", VStr (py "Hi"))]).

Definition done_event : document :=
  message (VDict [(py "type", VStr (py "response.done"))]).

Definition session_created (session : value) : document :=
  message (VDict [(py "type", VStr (py "session.created"));
                  (py "session", session)]).



(** A first reply [session.created] whose [session] is [null]. *)
Definition broken_session : world :=
  service env_sk_test 200 []
    (fun n => match n with
              | O => Answer (session_created VNone)
              | _ => Answer done_event
              end).

(** A service whose first reply is a well-formed [session.created] and whose
    second message ends the response. *)
Definition good_session : world :=
  service env_sk_test 200 []
    (fun n => match n with
              | O => Answer (session_created
                               (VDict [(py "id", VStr (py "sess_1"))]))
              | _ => Answer done_event
              end).

(* ================================================================== *)
(** * The credential file, and how a script may end *)
(* ================================================================== *)

(** The text of [s] before its first [sep]; all of [s] when it has none. *)
Fixpoint before_first (sep : N) (s : pystr) : pystr :=
  match s with
  | [] => []
  | c :: s' => if (c =? sep)%N then [] else c :: before_first sep s'
  end.

(** No line of the file starts with [OPENAI_API_KEY=]. *)
Definition no_key_line (lines : list pystr) : Prop :=
  Forall (fun line => PyStr.startswith line OPENAI_API_KEY_eq = false) lines.

(** The lines [for line in f] yields for a file with the text [s]. *)
Definition lines_of (s : pystr) : list pystr :=
  PyStr.readlines (PyStr.universal_newlines s).

(** A string that [strip] leaves alone: it neither starts nor ends with
    white space. *)
Definition stripped (k : pystr) : Prop :=
  (forall c k', k = c :: k' -> PyStr.isspace c = false)
  /\ (forall c k', k = k' ++ [c] -> PyStr.isspace c = false).

(** A run that did nothing but open the [.env] and print, and returned. *)
Definition only_read_env (r : list action * counters * outcome unit) : Prop :=
  out r = Returned tt /\ effects (acts r) = [AOpenRead env_path].

(** A run that opened the [.env], did nothing else, printed nothing, and
    ended with the exception [e]. *)
Definition stopped_at_open (e : exn) (c : counters)
    (r : list action * counters * outcome unit) : Prop :=
  r = ([AOpenRead env_path], c, Raised e).

(* ================================================================== *)
(** * What the HTTP checks read and print *)
(* ================================================================== *)

(** The line starts with the literal [s]. *)
Definition starts_with_lit (s : string) (l : list piece) : bool :=
  match l with
  | Lit s' :: _ => PrimString.eqb s s'
  | _ => false
  end.

(** A line that starts with the literal [s] was printed. *)
Definition prints_starting (s : string) (t : list action) : bool :=
  existsb (starts_with_lit s) (printed t).

(** The lines of [analyze_api_key] that name the format of the key. *)
Definition project_key_line : string :=
  "   ✅ Project-specific API key (new format)".
Definition standard_key_line : string := "   ✅ Standard API key".
Definition unusual_key_line : string := "   ⚠️ Unusual API key format".
Definition long_key_line : string := "   → Long key format (post-2024)".
Definition short_key_line : string := "   → Standard key format".

(** The error message [check_api_limits] reads from the body of an answer
    with status 429; [None] when the body is empty. *)
Definition rate_limit_message (r : response) : result (option value) :=
  match text (body r) with
  | [] => Ok None
  | _ :: _ =>
      result_bind (json_loads (body r)) (fun error_data =>
      result_bind (PyOps.get error_data (py "error") (VDict [])) (fun error =>
      result_bind (PyOps.get error (py "message") (VStr [])) (fun error_msg =>
      Ok (Some error_msg))))
  end.

(** The headings of the two blocks [check_api_limits] adds for an answer
    with status 429. *)
Definition rate_limits_heading : string := cat nl "📈 Rate Limits:".
Definition error_details_heading : string := cat nl "❌ Error Details:".

(** The answer carries an error message that can be read. *)
Definition has_error_message (r : response) : bool :=
  match rate_limit_message r with
  | Ok (Some _) => true
  | _ => false
  end.

(** The four headers of the rate-limit block. *)
Definition rate_limit_headers : list string :=
  ["x-ratelimit-limit-requests"; "x-ratelimit-remaining-requests";
   "x-ratelimit-limit-tokens"; "x-ratelimit-remaining-tokens"].

(** The rate-limit block gets through: the answer does not carry the header
    [x-ratelimit-limit-requests], or what [response.headers.get] yields for
    each of the four headers can be printed. *)
Definition rate_limits_printable (r : response) : bool :=
  if header_in r "x-ratelimit-limit-requests"
  then forallb (fun name => encodable (header_get r name)) rate_limit_headers
  else true.


(** The fields [test_gpt35.py] reads from the body of a 200 answer:
    [data['choices'][0]['message']['content']] and
    [data['usage']['total_tokens']]. *)
Definition gpt35_fields (r : response) : result (value * value) :=
  result_bind (response_json r) (fun data =>
  result_bind (PyOps.getitem data (py "choices")) (fun choices =>
  result_bind (PyOps.getindex choices 0) (fun choice =>
  result_bind (PyOps.getitem choice (py "message")) (fun message =>
  result_bind (PyOps.getitem message (py "content")) (fun ai_response =>
  result_bind (PyOps.getitem data (py "usage")) (fun usage =>
  result_bind (PyOps.getitem usage (py "total_tokens")) (fun tokens =>
  Ok (ai_response, tokens)))))))).

Definition gpt35_success_line : string := "✅ Success with GPT-3.5-turbo!".

(** Request number [n], when it is [q], is answered with status 200. *)
Definition answered_200 (w : world) (n : nat) (q : request) : Prop :=
  exists r, http w n q = Answer r /\ status_code r = 200.

(** The three closing lines of the summary of [test_api.py]. *)
Definition all_passed_line : string :=
  cat nl "🎉 All tests passed! The app is ready to use.".
Definition most_passed_line : string :=
  cat nl "⚠️ Most tests passed. Check failed tests.".
Definition multiple_failed_line : string :=
  cat nl "❌ Multiple tests failed. Please check your API configuration.".


(** The identifiers of the models in the body of an answer of
    [test_connection]: [[m['id'] for m in response.json()['data']]]. *)
Definition model_ids_of (r : response) : result (list value) :=
  result_bind (response_json r) (fun json =>
  result_bind (PyOps.getitem json (py "data")) (fun models =>
  result_bind (PyOps.len models) (fun _ =>
  result_bind (PyOps.iter models) (fun items =>
  test_api.ids_of items)))).

Definition whisper_line : string := "   ✅ Whisper model available".
Definition gpt4_line : string := "   ✅ GPT-4 model available".
Definition tts_line : string := "   ✅ TTS model available".

(** The closing line of the summary for a number of passed checks out of
    five. *)
Definition verdict_line (passed : nat) : string :=
  if (passed =? 5)%nat then all_passed_line
  else if (passed =? 4)%nat then most_passed_line
  else multiple_failed_line.

(** The trace [t] ends with the actions [l]. *)
Definition ends_with (l t : list action) : Prop := exists t', t = t' ++ l.

(** The lines of the summary that mark a check as passed. *)
Definition is_pass_line (l : list piece) : bool :=
  match l with
  | [Lit _; Lit _; Lit _; Lit s] => PrimString.eqb s "✅ PASS"
  | _ => false
  end.

Definition pass_lines (t : list action) : nat :=
  List.length (filter is_pass_line (printed t)).

(* ================================================================== *)
(** * What the realtime check reads and prints *)
(* ================================================================== *)

(** Read number [n] delivers an event whose ['type'] is [name]. *)
Definition reply_is (w : world) (n : nat) (name : pystr) : Prop :=
  exists d ty, ws_recv w n = Answer d /\ event_type d = Ok ty
               /\ PyOps.eq_str ty name = true.

(** The messages sent over the WebSocket, in order. *)
Definition sent (t : list action) : list value :=
  flat_map (fun a => match a with ASend m => [m] | _ => [] end) t.

(** The hints of the realtime check for a refused handshake. *)
Definition hint_401 : string := "   → Invalid API key".
Definition hint_403 : string := "   → API key doesn't have Realtime API access".
Definition hint_429 : string := "   → Rate limit exceeded or quota exhausted".
Definition hint_503 : string := "   → Service temporarily unavailable".



(** What a round of the response loop prints for the message it read: the
    text of a [response.text.delta] event, and nothing for any other
    event. *)
Definition delta_text (r : reply document) : list (list piece) :=
  match r with
  | Answer d =>
      match json_loads d with
      | Ok event =>
          match PyOps.getitem event (py "type") with
          | Ok ty =>
              if PyOps.eq_str ty (py "response.text.delta") then
                match PyOps.get event (py "delta") (VStr []) with
                | Ok delta => [[Lit "   AI: "; Fmt delta]]
                | Err _ => []
                end
              else []
          | Err _ => []
          end
      | Err _ => []
      end
  | Fail _ => []
  end.

Definition completed_line : list piece := [Lit "✅ AI response completed"].


(* ================================================================== *)
(** * More worlds *)
(* ================================================================== *)

(** A service in good health: every request is answered with status 200 and
    a body that lists the models and holds one chat completion. *)
Definition healthy_body : document :=
  message
    (VDict
       [(py "data", VList [VDict [(py "id", VStr (py "whisper-1"))];
                           VDict [(py "id", VStr (py "gpt-4"))]]);
        (py "choices",
         VList [VDict [(py "message",
                        VDict [(py "content", VStr (py "Hello!"))])]]);
        (py "usage", VDict [(py "total_tokens", VInt 12)])]).

Definition healthy : world :=
  {| env_file := Answer env_sk_test;
     now := py "2024-01-01 00:00:00";
     time_time := fun _ => 0%float;
     http := fun _ _ =>
       Answer {| status_code := 200; body := healthy_body; content := audio;
                 headers := [] |};
     ssl_context := Answer tt;
     ws_connect := Answer tt;
     ws_send := fun _ _ => Answer tt;
     ws_recv := fun _ => Answer done_event;
     write_file := fun _ _ => Answer tt |}.

(** An [error] event, as the service sends it for a key that is not valid. *)
Definition error_event : document :=
  message (VDict [(py "type", VStr (py "error"));
                  (py "error",
                   VDict [(py "code", VStr (py "invalid_api_key"));
                          (py "message", VStr (py "Incorrect API key"))])]).

(** A service that accepts the handshake and answers the session update
    with an [error] event. *)
Definition rejecting : world :=
  service env_sk_test 200 [] (fun _ => Answer error_event).

(** A service that refuses the handshake with the given status. *)
Definition refusing (status : Z) : world :=
  {| env_file := Answer env_sk_test;
     now := py "2024-01-01 00:00:00";
     time_time := fun _ => 0%float;
     http := fun _ _ => Fail (OtherException "ConnectionError");
     ssl_context := Answer tt;
     ws_connect := Fail (InvalidStatusCode status);
     ws_send := fun _ _ => Answer tt;
     ws_recv := fun _ => Fail AsyncioTimeoutError;
     write_file := fun _ _ => Answer tt |}.

(** The body of a 429 answer: the JSON text and its reading. *)
Definition rate_limit_body : document :=
  {| text := py "{" ++ [34%N] ++ py "error" ++ [34%N] ++ py ": {"
             ++ [34%N] ++ py "message" ++ [34%N] ++ py ": "
             ++ [34%N] ++ py "Rate limit reached" ++ [34%N] ++ py "}}";
     parsed :=
       Some (VDict [(py "error",
                     VDict [(py "message",
                             VStr (py "Rate limit reached"))])]) |}.

(** A service that answers every request with status 429, the rate-limit
    header and an error message. *)
Definition rate_limited : world :=
  {| env_file := Answer env_sk_test;
     now := py "2024-01-01 00:00:00";
     time_time := fun _ => 0%float;
     http := fun _ _ =>
       Answer {| status_code := 429;
                 body := rate_limit_body;
                 content := [];
                 headers := [(py "X-RateLimit-Limit-Requests", py "60")] |};
     ssl_context := Answer tt;
     ws_connect := Answer tt;
     ws_send := fun _ _ => Answer tt;
     ws_recv := fun _ => Answer done_event;
     write_file := fun _ _ => Answer tt |}.

(* ================================================================== *)
(** * Facts about strings *)
(* ================================================================== *)

Lemma pystr_eqb_eq (a b : pystr) : pystr_eqb a b = true <-> a = b.
Proof.
  unfold pystr_eqb. destruct (list_eq_dec N.eq_dec a b); split; congruence.
Qed.

Lemma pystr_eqb_refl (a : pystr) : pystr_eqb a a = true.
Proof. now apply pystr_eqb_eq. Qed.

(* ================================================================== *)
(** * Symbolic execution *)
(* ================================================================== *)

Lemma wp_ret A (a : A) Q c : Q [] c (Returned a) -> wp (ret a) Q c.
Proof. exact (fun H => H). Qed.

Lemma wp_raise A (e : exn) (Q : _ -> _ -> outcome A -> Prop) c :
  Q [] c (Raised e) -> wp (raise e) Q c.
Proof. exact (fun H => H). Qed.

Lemma wp_lift A (r : result A) (Q : _ -> _ -> outcome A -> Prop) c :
  match r with
  | Ok a => Q [] c (Returned a)
  | Err e => Q [] c (Raised (Builtin e))
  end -> wp (lift r) Q c.
Proof. destruct r; exact (fun H => H). Qed.

Lemma wp_print_end l e Q c :
  (if printable l then Q [APrint l e] c (Returned tt)
   else Q [] c (Raised (Builtin UnicodeEncodeError))) ->
  wp (print_end l e) Q c.
Proof. unfold wp, print_end. now destruct (printable l). Qed.

Lemma wp_print l Q c :
  (if printable l then Q [APrint l newline] c (Returned tt)
   else Q [] c (Raised (Builtin UnicodeEncodeError))) ->
  wp (print l) Q c.
Proof. apply wp_print_end. Qed.

Lemma wp_bind A B (m : M A) (k : A -> M B) Q c :
  wp m (fun t1 c1 o1 =>
          match o1 with
          | Returned a => wp (k a) (fun t2 c2 o2 => Q (t1 ++ t2) c2 o2) c1
          | Raised e => Q t1 c1 (Raised e)
          | OutOfFuel => Q t1 c1 OutOfFuel
          end) c ->
  wp (bind m k) Q c.
Proof.
  unfold wp, bind, acts, final, out.
  destruct (m c) as [[t1 c1] [a|e|]]; simpl; auto.
  destruct (k a c1) as [[t2 c2] o2]; simpl; auto.
Qed.

Lemma wp_try A (body : M A) handlers Q c :
  wp body (fun t1 c1 o1 =>
             match o1 with
             | Raised e =>
                 match handlers e with
                 | Some h => wp h (fun t2 c2 o2 => Q (t1 ++ t2) c2 o2) c1
                 | None => Q t1 c1 (Raised e)
                 end
             | _ => Q t1 c1 o1
             end) c ->
  wp (try_except body handlers) Q c.
Proof.
  unfold wp, try_except, acts, final, out.
  destruct (body c) as [[t1 c1] [a|e|]]; simpl; auto.
  destruct (handlers e) as [h|]; simpl; auto.
  destruct (h c1) as [[t2 c2] o2]; simpl; auto.
Qed.

Lemma wp_conseq A (m : M A) (Q Q' : _ -> _ -> outcome A -> Prop) c :
  wp m Q c -> (forall t c' o, Q t c' o -> Q' t c' o) -> wp m Q' c.
Proof. unfold wp; auto. Qed.

Section WpOperations.

Variable w : world.

Lemma wp_time_time Q c :
  Q [] (bump_clock c) (Returned (time_time w (n_clock c))) ->
  wp (time_time_ w) Q c.
Proof. exact (fun H => H). Qed.

Lemma wp_time_sleep s Q c :
  Q [ASleep s] c (Returned tt) -> wp (time_sleep s) Q c.
Proof. exact (fun H => H). Qed.

Lemma wp_requests_send r Q c :
  Q [AHttp r] (bump_http c) (of_reply (http w (n_http c) r)) ->
  wp (requests_send w r) Q c.
Proof. exact (fun H => H). Qed.

Lemma wp_write_bytes p d Q c :
  Q [AWriteFile p d] c (of_reply (write_file w p d)) ->
  wp (write_bytes w p d) Q c.
Proof. exact (fun H => H). Qed.

Lemma wp_create_ssl_context Q c :
  Q [] c (of_reply (ssl_context w)) -> wp (create_ssl_context w) Q c.
Proof. exact (fun H => H). Qed.

Lemma wp_websocket_send m Q c :
  Q [ASend m] (bump_send c) (of_reply (ws_send w (n_send c) m)) ->
  wp (websocket_send w m) Q c.
Proof. exact (fun H => H). Qed.

Lemma wp_wait_for_recv x Q c :
  Q [ARecv x] (bump_recv c) (of_reply (ws_recv w (n_recv c))) ->
  wp (wait_for_recv w x) Q c.
Proof. exact (fun H => H). Qed.

Lemma wp_open_read p Q c :
  Q [AOpenRead p] c
    (match env_file w with
     | Answer s => Returned (PyStr.readlines (PyStr.universal_newlines s))
     | Fail e => Raised e
     end) ->
  wp (open_read w p) Q c.
Proof. exact (fun H => H). Qed.

Lemma wp_with_connect A uri h (body : M A) Q c :
  match ws_connect w with
  | Fail e => Q [AConnect uri h] c (Raised e)
  | Answer _ =>
      wp body (fun t c' o =>
                 match o with
                 | OutOfFuel => Q ([AConnect uri h] ++ t) c' OutOfFuel
                 | _ => Q ([AConnect uri h] ++ t ++ [AClose]) c' o
                 end) c
  end ->
  wp (with_connect w uri h body) Q c.
Proof.
  unfold wp, with_connect, acts, final, out.
  destruct (ws_connect w); auto.
  destruct (body c) as [[t c'] [a'|e|]]; simpl; auto.
Qed.

End WpOperations.

(** A case distinction on [x], unless a hypothesis already tells what [x]
    is. *)
Ltac case_on x :=
  first [ match goal with H : x = _ |- _ => rewrite H end
        | destruct x eqn:? ].

(** Whether the line at hand can be printed, as far as its pieces tell. *)
Ltac line_printable :=
  lazymatch goal with
  | |- if ?b then _ else _ =>
      let b' := eval cbn [printable piece_ok encodable key_head key_tail
                          test_api.total_line] in b in
      change b with b'
  end.

(** One step of symbolic execution: the rule of the operation at the head
    of the program, or a case distinction on what the outside world, a test
    or a pure operation yields. *)
Ltac wp_step :=
  lazymatch goal with
  | |- wp ?m _ _ =>
      lazymatch m with
      | bind _ _ => apply wp_bind
      | try_except _ _ => apply wp_try
      | ret _ => apply wp_ret
      | raise _ => apply wp_raise
      | print _ => apply wp_print; line_printable
      | print_end _ _ => apply wp_print_end; line_printable
      | time_time_ _ => apply wp_time_time
      | time_sleep _ => apply wp_time_sleep
      | requests_get _ _ _ => apply wp_requests_send
      | requests_post _ _ _ _ => apply wp_requests_send
      | requests_send _ _ => apply wp_requests_send
      | write_bytes _ _ _ => apply wp_write_bytes
      | create_ssl_context _ => apply wp_create_ssl_context
      | websocket_send _ _ => apply wp_websocket_send
      | wait_for_recv _ _ => apply wp_wait_for_recv
      | open_read _ _ => apply wp_open_read
      | with_connect _ _ _ _ => apply wp_with_connect
      | lift _ => apply wp_lift
      | if ?b then _ else _ => case_on b
      | match ?x with _ => _ end => case_on x
      end
  | |- match of_reply ?r with _ => _ end =>
      let r' := eval cbn [n_clock n_http n_send n_recv
                          bump_clock bump_http bump_send bump_recv] in r in
      change r with r'; case_on r'; cbn [of_reply]
  | |- (if (if ?b then _ else _) then _ else _) => case_on b
  | |- match except_Exception _ _ with _ => _ end =>
      unfold except_Exception; cbn [is_Exception];
      lazymatch goal with
      | |- context [if is_Exception ?e then _ else _] =>
          case_on (is_Exception e)
      | _ => idtac
      end
  | |- match ?x with _ => _ end => case_on x
  end; cbv beta iota zeta.

(** Run a program symbolically to each of its ends, the postcondition kept
    folded on the way. *)
Ltac wp_run :=
  let P := fresh "P" in
  match goal with |- wp _ ?Q _ => set (P := Q) end;
  cbv zeta; repeat wp_step; subst P; cbv beta.

Lemma world_raised_Exception w e :
  raises_Exception_only w -> world_raised w e -> is_Exception e = true.
Proof.
  intros [H1 H2 H3 H4 H5 H6].
  intros [(n & r & H) | [H | [H | [(n & m & H) | [(n & H) | (p & d & H)]]]]];
    eauto.
Qed.

Lemma settled_returns A w t (o : outcome A) :
  raises_Exception_only w -> settled w t o ->
  exists a, o = Returned a /\ reported t = true.
Proof.
  intros Hw; destruct o as [a|e|]; simpl; [eauto | | tauto].
  intros [He Hr]. rewrite (world_raised_Exception Hw Hr) in He. discriminate.
Qed.

Ltac settle :=
  lazymatch goal with
  | |- settled _ _ (Returned _) => reflexivity
  | |- settled _ _ (Raised _) =>
      split; [assumption | unfold world_raised; eauto 12]
  end.

(** Status tests that came out true fix the status. *)
Ltac fix_status :=
  repeat match goal with
         | H : (?x =? ?n) = true |- _ =>
             apply Z.eqb_eq in H; try rewrite H in *
         end.

(* ================================================================== *)
(** * Facts about traces *)
(* ================================================================== *)

Lemma effects_app t u : effects (t ++ u) = effects t ++ effects u.
Proof. apply filter_app. Qed.

(** A reading of the trace that skips printed lines reads the same in the
    effects. *)
Lemma flat_map_effects B (f : action -> list B) t :
  (forall l e, f (APrint l e) = []) ->
  flat_map f (effects t) = flat_map f t.
Proof.
  intros Hf. induction t as [|a t IH]; [reflexivity | ].
  destruct a; simpl; try (now rewrite IH).
  now rewrite Hf.
Qed.

Lemma opened_effects t : opened (effects t) = opened t.
Proof. now apply flat_map_effects. Qed.
Lemma written_effects t : written (effects t) = written t.
Proof. now apply flat_map_effects. Qed.
Lemma exits_effects t : exits (effects t) = exits t.
Proof. now apply flat_map_effects. Qed.
Lemma attempts_effects t : attempts (effects t) = attempts t.
Proof. now apply flat_map_effects. Qed.
Lemma authorizations_effects t : authorizations (effects t) = authorizations t.
Proof. now apply flat_map_effects. Qed.
Lemma read_timeouts_effects t : read_timeouts (effects t) = read_timeouts t.
Proof. now apply flat_map_effects. Qed.

Lemma ws_traffic_effects t : ws_traffic (effects t) = ws_traffic t.
Proof.
  induction t as [|a t IH]; [reflexivity | ].
  destruct a; simpl; try (now rewrite IH); assumption.
Qed.

Lemma printed_app t u : printed (t ++ u) = printed t ++ printed u.
Proof. apply flat_map_app. Qed.
Lemma opened_app t u : opened (t ++ u) = opened t ++ opened u.
Proof. apply flat_map_app. Qed.
Lemma exits_app t u : exits (t ++ u) = exits t ++ exits u.
Proof. apply flat_map_app. Qed.
Lemma attempts_app t u : attempts (t ++ u) = attempts t ++ attempts u.
Proof. apply flat_map_app. Qed.
Lemma authorizations_app t u :
  authorizations (t ++ u) = authorizations t ++ authorizations u.
Proof. apply flat_map_app. Qed.

Lemma reported_snoc_print t l e : reported (t ++ [APrint l e]) = true.
Proof. unfold reported. now rewrite rev_app_distr. Qed.

(** Two requests or handshakes with different methods or addresses. *)
Ltac distinct_attempts :=
  repeat constructor; simpl;
  repeat match goal with
         | |- ~ _ => intro
         | H : _ \/ _ |- _ => destruct H
         | H : False |- _ => destruct H
         | H : (_, _) = (_, _) |- _ => now inversion H
         end.

(** Every effect of the trace, computed from the effects of its parts. *)
Ltac effects_of_parts :=
  rewrite ?effects_app;
  repeat match goal with
         | H : effects ?t = _ |- context [effects ?t] => rewrite H
         end.

Lemma tidy_effects key t : tidy key (effects t) -> tidy key t.
Proof.
  unfold tidy.
  now rewrite opened_effects, exits_effects, authorizations_effects,
    attempts_effects.
Qed.

Ltac tidy_list :=
  lazymatch goal with |- tidy _ _ => unfold tidy end;
  cbn -[bearer];
  repeat match goal with |- _ /\ _ => split end;
  first [reflexivity | solve [repeat constructor] | distinct_attempts].

(** Use the lemma of a function where the program calls it. *)
Ltac wp_use lemma :=
  eapply wp_conseq; [apply lemma | cbv beta; intros ? ? ?].

(* ================================================================== *)
(** * check_api_usage.py: what its functions do *)
(* ================================================================== *)

Section CheckApiUsageFacts.

Variable w : world.
Variable key : option pystr.

Lemma check_api_limits_runs c :
  wp (check_api_usage.check_api_limits w key)
     (fun t c' o =>
        settled w t o
        /\ (effects t = [AHttp (model_request key)]
            \/ effects t = [AHttp (model_request key); AHttp (models_request key)])
        /\ match http w (n_http c) (model_request key) with
           | Answer r =>
               prints_lit valid_line t = (status_code r =? 200)
               /\ prints_lit invalid_line t = (status_code r =? 401)
               /\ prints_lit rate_line t = (status_code r =? 429)
           | Fail _ => True
           end) c.
Proof.
  unfold check_api_usage.check_api_limits, model_request, models_request,
    model_url, models_url.
  wp_run.
  all: split; [settle | ].
  all: split; [(left; reflexivity) || (right; reflexivity) | ].
  all: try exact I.
  all: fix_status; repeat split; reflexivity.
Qed.

Lemma analyze_api_key_runs c :
  wp (check_api_usage.analyze_api_key key)
     (fun t c' o => effects t = []) c.
Proof. unfold check_api_usage.analyze_api_key. wp_run; reflexivity. Qed.

Lemma estimate_usage_runs c :
  wp check_api_usage.estimate_usage (fun t c' o => effects t = []) c.
Proof. unfold check_api_usage.estimate_usage. wp_run; reflexivity. Qed.

Lemma check_api_usage_main_runs c :
  wp (check_api_usage.main w key)
     (fun t c' o => tidy key t /\ written t = []) c.
Proof.
  unfold check_api_usage.main.
  match goal with |- wp _ ?Q _ => set (P := Q) end.
  cbv zeta; repeat wp_step.
  all: try (wp_use analyze_api_key_runs; intros Ha; repeat wp_step).
  all: try (wp_use check_api_limits_runs; intros (_ & Hc & _);
            repeat wp_step).
  all: try (wp_use estimate_usage_runs; intros He; repeat wp_step).
  all: subst P; cbv beta; rewrite <- written_effects;
    split; [apply tidy_effects | ]; effects_of_parts.
  all: try reflexivity; try solve [tidy_list].
  all: destruct Hc as [Hc|Hc]; rewrite Hc; try reflexivity; tidy_list.
Qed.

End CheckApiUsageFacts.

(* ================================================================== *)
(** * A script: the credential is loaded, then [main] runs *)
(* ================================================================== *)

Lemma load_api_key_runs w c :
  wp (load_api_key w)
     (fun t c' o => t = [AOpenRead env_path] /\ c' = c /\ o = credential w) c.
Proof.
  unfold credential, load_api_key, wp, bind, open_read, lift, acts, final, out.
  simpl. destruct (env_file w) as [s|e]; simpl; auto.
  destruct (scan_lines _); simpl; auto.
Qed.

Lemma script_runs w (main : option pystr -> M unit)
    (R : counters -> list action -> Prop) :
  (forall key c, wp (main key) (fun t _ _ => tidy key t /\ R c (effects t)) c) ->
  (forall c, R c []) ->
  forall c,
    wp (key <- load_api_key w ;; main key)
       (fun t _ _ =>
          script_tidy w t
          /\ exists es, effects t = AOpenRead env_path :: es /\ R c es) c.
Proof.
  intros Hmain HR c. apply wp_bind.
  wp_use load_api_key_runs. intros (-> & -> & ->).
  destruct (credential w) as [key|e|] eqn:Hk;
    try (split; [unfold script_tidy; cbn; repeat split; constructor
                | exists []; split; [reflexivity | apply HR]]).
  wp_use (Hmain key). intros [(Ho & Hx & Ha & Hn) Hw].
  unfold script_tidy.
  rewrite opened_app, exits_app, authorizations_app, attempts_app, Ho, Hx.
  repeat split; [ | exact Hn | eexists; split; [reflexivity | exact Hw]].
  eapply Forall_impl; [ | exact Ha]. intros a <-. now exists key.
Qed.

(** What a script wrote is what its [main] wrote. *)
Lemma written_after_load t es :
  effects t = AOpenRead env_path :: es -> written t = written es.
Proof. intros H. now rewrite <- written_effects, H. Qed.

Lemma check_api_usage_script_runs w c :
  wp (check_api_usage.script w)
     (fun t _ _ => script_tidy w t /\ written t = []) c.
Proof.
  eapply wp_conseq.
  - apply (@script_runs w (check_api_usage.main w) (fun _ es => written es = [])).
    + intros key c0. wp_use check_api_usage_main_runs.
      intros [Ht Hw]. now rewrite written_effects.
    + reflexivity.
  - cbv beta. intros t _ _ [Ht (es & He & Hw)].
    split; [exact Ht | ]. now rewrite (@written_after_load t es He).
Qed.

(* ================================================================== *)
(** * test_gpt35.py: what it does *)
(* ================================================================== *)

Section TestGpt35Facts.

Variable w : world.
Variable key : option pystr.

Lemma body_after_key_runs c :
  wp (test_gpt35.body_after_key w key)
     (fun t c' o => settled w t o /\ effects t = [AHttp (gpt35_request key)]) c.
Proof.
  unfold test_gpt35.body_after_key.
  wp_run.
  all: split; [settle | reflexivity].
Qed.

Lemma test_gpt35_main_runs c :
  wp (test_gpt35.body_after_key w key)
     (fun t c' o => tidy key t /\ written t = []) c.
Proof.
  wp_use body_after_key_runs. intros [_ He].
  rewrite <- written_effects. split; [apply tidy_effects | ]; rewrite He.
  - tidy_list.
  - reflexivity.
Qed.

End TestGpt35Facts.

Lemma test_gpt35_script_runs w c :
  wp (test_gpt35.script w)
     (fun t _ _ => script_tidy w t /\ written t = []) c.
Proof.
  eapply wp_conseq.
  - apply (@script_runs w (test_gpt35.body_after_key w)
             (fun _ es => written es = [])).
    + intros key c0. wp_use test_gpt35_main_runs.
      intros [Ht Hw]. now rewrite written_effects.
    + reflexivity.
  - cbv beta. intros t _ _ [Ht (es & He & Hw)].
    split; [exact Ht | ]. now rewrite (@written_after_load t es He).
Qed.

(* ================================================================== *)
(** * test_api.py: what its functions do *)
(* ================================================================== *)

Section TestApiFacts.

Variable w : world.
Variable key : option pystr.

Lemma test_connection_runs c :
  wp (test_api.test_connection w key)
     (fun t c' o =>
        settled w t o /\ effects t = [AHttp (connection_request key)]
        /\ n_http c' = S (n_http c)) c.
Proof.
  unfold test_api.test_connection.
  wp_run.
  all: split; [settle | split; reflexivity].
Qed.

Lemma test_chat_completion_runs c :
  wp (test_api.test_chat_completion w key)
     (fun t c' o =>
        settled w t o /\ effects t = [AHttp (chat_request key)]
        /\ n_http c' = S (n_http c)) c.
Proof.
  unfold test_api.test_chat_completion.
  wp_run.
  all: split; [settle | split; reflexivity].
Qed.

Lemma test_tts_runs c :
  wp (test_api.test_tts w key)
     (fun t c' o =>
        settled w t o
        /\ effects t = AHttp (tts_request key)
                       :: map (fun f => AWriteFile (fst f) (snd f))
                              (tts_file w key (n_http c))
        /\ n_http c' = S (n_http c)) c.
Proof.
  unfold test_api.test_tts, tts_file, tts_request.
  wp_run.
  all: split; [settle | split; reflexivity].
Qed.

(** The two checks that call nothing. *)
Lemma test_whisper_runs c :
  wp test_api.test_whisper
     (fun t c' o => effects t = [] /\ c' = c /\ o = Returned true
                    /\ reported t = true) c.
Proof. repeat split. Qed.

Lemma test_complete_flow_runs c :
  wp test_api.test_complete_flow
     (fun t c' o => effects t = repeat (ASleep 0.5) 5 /\ c' = c
                    /\ o = Returned true /\ reported t = true) c.
Proof. repeat split. Qed.

Lemma calculate_costs_runs c :
  wp test_api.calculate_costs
     (fun t c' o => effects t = [] /\ c' = c /\ o = Returned tt) c.
Proof. repeat split. Qed.

Lemma for_results_runs l c :
  wp (test_api.for_results l)
     (fun t c' o => effects t = [] /\ c' = c /\ o = Returned tt) c.
Proof.
  revert c. induction l as [|[n r] l IH]; intros c; [repeat split | ].
  cbn [test_api.for_results]. cbv zeta. repeat wp_step.
  wp_use IH. intros (He & -> & ->). rewrite effects_app, He. repeat split.
Qed.

End TestApiFacts.

Section TestApiMain.

Variable w : world.
Variable key : option pystr.

Ltac main_leaf :=
  split; [apply tidy_effects | rewrite <- written_effects];
  effects_of_parts;
  repeat match goal with H : n_http _ = _ |- _ => rewrite H in * end;
  unfold tts_file;
  repeat match goal with
         | |- context [match http ?w ?n ?r with _ => _ end] =>
             destruct (http w n r)
         | |- context [if ?b then _ else _] => destruct b
         end;
  first [tidy_list | left; reflexivity | right; reflexivity].

Lemma test_api_main_runs c :
  wp (test_api.main w key)
     (fun t c' o =>
        tidy key t
        /\ (written t = [] \/ written t = tts_file w key (2 + n_http c))) c.
Proof.
  unfold test_api.main, test_api.test_whisper, test_api.test_complete_flow,
    test_api.calculate_costs.
  cbn [test_api.for_steps test_api.steps].
  match goal with |- wp _ ?Q _ => set (P := Q) end.
  cbv zeta; repeat wp_step.
  all: try (wp_use test_connection_runs; intros (_ & H1 & N1);
            repeat wp_step).
  all: try (wp_use test_chat_completion_runs; intros (_ & H2 & N2);
            repeat wp_step).
  all: try (wp_use test_tts_runs; intros (_ & H3 & N3); repeat wp_step;
            cbn [test_api.for_results]; repeat wp_step).
  all: subst P; cbv beta; cbn [plus].
  all: main_leaf.
Qed.

Lemma test_api_main_summary c :
  raises_Exception_only w -> PyOps.truthy key = true ->
  wp (test_api.main w key)
     (fun t c' o =>
        o = Returned tt
        /\ exists r1 r2 r4, In (summary_line r1 r2 r4) t) c.
Proof.
  intros Hw Hk.
  destruct key as [k|]; [ | discriminate Hk].
  unfold test_api.main, test_api.test_whisper, test_api.test_complete_flow,
    test_api.calculate_costs.
  cbn [test_api.for_steps test_api.steps].
  rewrite Hk. cbn [negb].
  match goal with |- wp _ ?Q _ => set (P := Q) end.
  cbv zeta; repeat wp_step.
  wp_use test_connection_runs; intros (S1 & _).
  destruct (@settled_returns _ w _ _ Hw S1) as (r1 & -> & _).
  repeat wp_step.
  wp_use test_chat_completion_runs; intros (S2 & _).
  destruct (@settled_returns _ w _ _ Hw S2) as (r2 & -> & _).
  repeat wp_step.
  wp_use test_tts_runs; intros (S3 & _).
  destruct (@settled_returns _ w _ _ Hw S3) as (r4 & -> & _).
  repeat wp_step. cbn [test_api.for_results]. repeat wp_step.
  all: subst P; cbv beta; split; [reflexivity | exists r1, r2, r4].
  all: unfold summary_line, results_of;
    repeat (apply in_or_app; first [left; left; reflexivity | right]).
Qed.

(** The two stubbed checks always count, so two to five checks pass, and
    the rate is 40 per cent at least. *)
Lemma summary_bounds r1 r2 r4 :
  let k := test_api.total_passed_of (results_of r1 r2 r4) in
  (2 <= k <= 5)%nat
  /\ (40 <=? test_api.success_rate_of k 5)%float = true.
Proof. destruct r1, r2, r4; vm_compute; repeat split; lia. Qed.

End TestApiMain.


Lemma test_api_script_runs w c :
  wp (test_api.script w)
     (fun t _ _ =>
        script_tidy w t
        /\ (written t = []
            \/ exists key, written t = tts_file w key (2 + n_http c))) c.
Proof.
  eapply wp_conseq.
  - apply (@script_runs w (test_api.main w)
             (fun c es => written es = []
                          \/ exists key,
                               written es = tts_file w key (2 + n_http c))).
    + intros key c0. wp_use test_api_main_runs.
      rewrite written_effects. intros [Ht [Hw|Hw]]; eauto.
    + auto.
  - cbv beta. intros t _ _ [Ht (es & He & Hw)].
    split; [exact Ht | ]. now rewrite (@written_after_load t es He).
Qed.

(* ================================================================== *)
(** * test_api.py: the script, with and without a credential *)
(* ================================================================== *)

(** A script is its [main] run with what [load_api_key] returned. *)
Lemma script_with_credential w (main : option pystr -> M unit) k c :
  credential w = Returned k ->
  (key <- load_api_key w ;; main key) c
  = (AOpenRead env_path :: acts (main k c), final (main k c), out (main k c)).
Proof.
  intros Hk. pose proof (load_api_key_runs w c) as H.
  unfold wp in H. rewrite Hk in H. unfold bind.
  destruct (load_api_key w c) as [[t c'] o]. unfold acts, final, out in H.
  cbn [fst snd] in H. destruct H as (-> & -> & ->).
  destruct (main k c) as [[t2 c2] o2]. reflexivity.
Qed.

Lemma main_without_key_test_api w k c :
  PyOps.truthy k = false ->
  wp (test_api.main w k)
     (fun t _ o => o = Returned tt /\ effects t = []) c.
Proof.
  intros Hk. unfold test_api.main. rewrite Hk. cbn [negb].
  wp_run. split; reflexivity.
Qed.

Section TestApiEffects.

Variable w : world.
Variable key : option pystr.

Lemma test_api_main_effects c :
  raises_Exception_only w -> PyOps.truthy key = true ->
  wp (test_api.main w key)
     (fun t _ o =>
        o = Returned tt
        /\ effects t
           = [AHttp (connection_request key); AHttp (chat_request key);
              AHttp (tts_request key)]
             ++ map (fun f => AWriteFile (fst f) (snd f))
                    (tts_file w key (2 + n_http c))
             ++ repeat (ASleep 0.5) 5) c.
Proof.
  intros Hw Hk.
  destruct key as [k|]; [ | discriminate Hk].
  unfold test_api.main, test_api.test_whisper, test_api.test_complete_flow,
    test_api.calculate_costs.
  cbn [test_api.for_steps test_api.steps].
  rewrite Hk. cbn [negb].
  match goal with |- wp _ ?Q _ => set (P := Q) end.
  cbv zeta; repeat wp_step.
  wp_use test_connection_runs; intros (S1 & E1 & N1).
  destruct (@settled_returns _ w _ _ Hw S1) as (r1 & -> & _).
  repeat wp_step.
  wp_use test_chat_completion_runs; intros (S2 & E2 & N2).
  destruct (@settled_returns _ w _ _ Hw S2) as (r2 & -> & _).
  repeat wp_step.
  wp_use test_tts_runs; intros (S3 & E3 & N3).
  destruct (@settled_returns _ w _ _ Hw S3) as (r4 & -> & _).
  repeat wp_step. cbn [test_api.for_results]. repeat wp_step.
  all: subst P; cbv beta; split; [reflexivity | ].
  all: effects_of_parts; cbn [n_http bump_clock bump_http] in *.
  all: rewrite N2, N1; cbn [plus]; cbn [effects filter is_print negb app];
    rewrite ?app_nil_r; reflexivity.
Qed.

End TestApiEffects.






(* ================================================================== *)
(** * test_realtime_api.py: the response loop *)
(* ================================================================== *)


Lemma reported_app_r pre t : reported t = true -> reported (pre ++ t) = true.
Proof.
  unfold reported. rewrite rev_app_distr.
  induction (rev t) as [|a r IH]; simpl; [discriminate | ].
  destruct a; auto.
Qed.

Lemma effects_repeat_recv x k :
  effects (repeat (ARecv x) k) = repeat (ARecv x) k.
Proof. induction k; simpl; congruence. Qed.

Section ResponseLoop.

Variable w : world.

Lemma go_on_until_S n j :
  goes_on (ws_recv w n) = true -> go_on_until w (S n) j ->
  go_on_until w n (S j).
Proof.
  intros H0 H [|i] Hi.
  - now rewrite Nat.add_0_r.
  - rewrite <- Nat.add_succ_comm. apply H. lia.
Qed.

Lemma loop_post_step fuel c t t' c' o :
  goes_on (ws_recv w (n_recv c)) = true ->
  effects t' = ARecv 10 :: effects t ->
  (reported t = true -> reported t' = true) ->
  loop_post w fuel (bump_recv c) t c' o ->
  loop_post w (S fuel) c t' c' o.
Proof.
  intros Hg Hp Hrep (k & He & Ho). exists (S k).
  split; [now rewrite Hp, He | ].
  cbn [n_recv bump_recv] in Ho.
  destruct o as [u|e|].
  - destruct Ho as (j & -> & Hj & Hd & Hr). exists (S j).
    rewrite <- Nat.add_succ_comm. auto using go_on_until_S.
  - destruct Ho as (j & -> & Hj & Hs & Hd & Hx). exists (S j).
    rewrite <- Nat.add_succ_comm. auto 6 using go_on_until_S.
  - destruct Ho as [-> Hj]. auto using go_on_until_S.
Qed.

(** The loop has stopped at its first read. *)
Lemma loop_post_stop fuel c t c' (o : outcome unit) :
  effects t = [ARecv 10] ->
  match o with
  | Returned _ =>
      is_done (ws_recv w (n_recv c)) = true /\ reported t = true
  | Raised e =>
      goes_on (ws_recv w (n_recv c)) = false
      /\ is_done (ws_recv w (n_recv c)) = false
      /\ (is_Exception e = false -> world_raised w e)
  | OutOfFuel => False
  end ->
  loop_post w (S fuel) c t c' o.
Proof.
  intros He Ho. exists 1%nat. split; [exact He | ].
  destruct o as [u|e|]; [ | | contradiction]; exists 0%nat;
    rewrite Nat.add_0_r; repeat split; try tauto; intros i Hi; lia.
Qed.

(** A [dict] that has a ['type'] answers [.get]. *)
Lemma getitem_then_get event k ty k' d :
  PyOps.getitem event k = Ok ty ->
  exists v, PyOps.get event k' d = Ok v.
Proof.
  destruct event; try discriminate. intros _. simpl.
  destruct (PyOps.lookup k' d0); eauto.
Qed.

Ltac use_equations :=
  cbn [bump_recv n_recv];
  repeat match goal with
         | H : ?x = _ |- context [?x] => rewrite H; cbn [result_bind negb]
         end.

Lemma response_loop_runs fuel :
  forall c, wp (test_realtime_api.response_loop w fuel) (loop_post w fuel c) c.
Proof.
  induction fuel as [|fuel IH]; intros c.
  - exists 0%nat. repeat split. intros i Hi; lia.
  - cbn [test_realtime_api.response_loop].
    match goal with |- wp _ ?Q _ => set (P := Q) end.
    cbv zeta; repeat wp_step.
    all: try (eapply wp_conseq; [apply IH | ];
              cbv beta; intros t1 c1 o1 Hpost; subst P;
              apply loop_post_step with (t := t1);
              [unfold goes_on, event_type; use_equations; reflexivity
              | rewrite !effects_app; reflexivity
              | intros Hr; repeat apply reported_app_r; exact Hr
              | exact Hpost]).
    all: subst P; cbv beta.
    all: try (match goal with
              | H1 : PyOps.getitem ?ev _ = Ok _,
                H2 : PyOps.get ?ev ?k ?d = Err _ |- _ =>
                  destruct (@getitem_then_get _ _ _ k d H1) as [? ?]; congruence
              end).
    all: apply loop_post_stop; [reflexivity | ].
    all: unfold goes_on, is_done, event_type; use_equations;
      repeat split; try reflexivity; try discriminate.
    all: try (intros Hx; first [discriminate Hx
                               | unfold world_raised; eauto 12]).
Qed.

End ResponseLoop.

(* ================================================================== *)
(** * test_realtime_api.py: the connection test *)
(* ================================================================== *)

Lemma reported_close t : reported t = true -> reported (t ++ [AClose]) = true.
Proof. unfold reported. now rewrite rev_app_distr. Qed.

Lemma reported_cons a t : reported t = true -> reported (a :: t) = true.
Proof. apply (reported_app_r [a]). Qed.

(** The last act was to print: found through the parts of the trace. *)
Ltac report :=
  rewrite ?app_nil_r;
  repeat first [assumption | reflexivity | apply reported_close
               | apply reported_cons | apply reported_app_r].

(** The [except] clauses of the realtime check, by the class of the
    exception. *)
Ltac handle :=
  lazymatch goal with
  | |- match test_realtime_api.handlers ?e with _ => _ end =>
      unfold test_realtime_api.handlers;
      first [is_var e; destruct e | idtac];
      cbv beta iota
  end.

Section RealtimeFacts.

Variable w : world.

Ltac shape :=
  effects_of_parts; cbn; rewrite ?app_nil_r;
  lazymatch goal with
  | |- realtime_effects ?key _ =>
      first [ exact (re_none key) | exact (re_refused key)
            | exact (re_closed key ep_update)
            | exact (re_closed key ep_reply)
            | exact (re_closed key ep_message)
            | match goal with
              | H : effects _ = repeat _ ?k |- _ =>
                  first [exact (re_closed key (ep_loop k))
                        | exact (re_open key k)]
              end
            | exact (re_closed key (ep_loop 0)) ]
  end.

Lemma test_realtime_connection_runs key fuel c :
  wp (test_realtime_api.test_realtime_connection w key fuel)
     (realtime_post w key fuel c) c.
Proof.
  unfold test_realtime_api.test_realtime_connection, realtime_post.
  match goal with |- wp _ ?Q _ => set (P := Q) end.
  cbv zeta; repeat first [handle | wp_step].
  all: try (wp_use (response_loop_runs w fuel); intros (k & He & Ho);
            repeat first [handle | wp_step]).
  all: subst P; cbv beta.
  all: (split; [shape | ]).
  all: try solve [report].
  all: try solve [split; [assumption || reflexivity
                         | unfold world_raised; eauto 12]].
  all: try cbn [n_recv bump_send bump_recv] in Ho.
  all: try solve [destruct Ho as (j & ? & ? & ? & ?); report].
  all: try match goal with
           | H : negb (PyOps.truthy None) = false |- _ => discriminate H
           end.
  all: try solve [destruct Ho as (j & ? & ? & ? & ? & Hx);
                  split; [reflexivity | now apply Hx]].
  all: try solve [destruct Ho as [-> Hg]; exact Hg].
Qed.

End RealtimeFacts.

(** Reads of the loop add nothing to what a trace opens, writes, requests or
    authorizes. *)
Lemma flat_map_reads B (f : action -> list B) pre k post :
  (forall x, f (ARecv x) = []) ->
  flat_map f (pre ++ repeat (ARecv 10) k ++ post) = flat_map f (pre ++ post).
Proof.
  intros Hf. rewrite !flat_map_app. f_equal.
  induction k as [|k IH]; [reflexivity | ]. simpl. now rewrite Hf.
Qed.

Lemma read_timeouts_reads pre k post :
  read_timeouts (pre ++ repeat (ARecv 10) k ++ post)
  = read_timeouts pre ++ repeat 10%float k ++ read_timeouts post.
Proof.
  unfold read_timeouts. rewrite !flat_map_app. do 2 f_equal.
  induction k as [|k IH]; [reflexivity | ]. simpl. now rewrite IH.
Qed.

Lemma ws_traffic_reads pre k post :
  ws_traffic (pre ++ repeat (ARecv 10) k ++ post)
  = ws_traffic pre ++ repeat (ARecv 10) k ++ ws_traffic post.
Proof.
  unfold ws_traffic. rewrite !filter_app. do 2 f_equal.
  induction k as [|k IH]; [reflexivity | ]. simpl. now rewrite IH.
Qed.

Section RealtimeShape.

Variable key : option pystr.

Lemma closed_loop_eq k :
  handshake key :: exchange k ++ [AClose]
  = opening key ++ repeat (ARecv 10) k ++ [AClose].
Proof. unfold exchange. now rewrite <- app_assoc. Qed.

Lemma open_loop_eq k :
  handshake key :: exchange k = opening key ++ repeat (ARecv 10) k ++ [].
Proof. now rewrite app_nil_r. Qed.

Lemma realtime_effects_facts es :
  realtime_effects key es ->
  tidy key es /\ written es = [] /\ timeouts_ok (read_timeouts es).
Proof.
  intros [ | | body [ | | | k] | k];
    rewrite ?closed_loop_eq, ?open_loop_eq;
    unfold tidy, opened, exits, authorizations, attempts, written;
    rewrite ?flat_map_reads, ?read_timeouts_reads by reflexivity;
    cbn -[bearer];
    repeat match goal with |- _ /\ _ => split end;
    try reflexivity; try solve [repeat constructor];
    try solve [distinct_attempts];
    try solve [left; reflexivity];
    try solve [right; exists 0%nat; reflexivity].
  all: right; exists k; now rewrite ?app_nil_r.
Qed.

Lemma ws_traffic_closed k :
  ws_traffic (handshake key :: exchange k ++ [AClose]) = exchange k.
Proof.
  rewrite closed_loop_eq, ws_traffic_reads. cbn. now rewrite app_nil_r.
Qed.

Lemma ws_traffic_open k :
  ws_traffic (handshake key :: exchange k) = exchange k.
Proof.
  rewrite open_loop_eq, ws_traffic_reads. cbn. now rewrite app_nil_r.
Qed.

End RealtimeShape.

Section RealtimeMain.

Variable w : world.

Lemma analyze_results_runs b c :
  wp (test_realtime_api.analyze_results b)
     (fun t c' o => effects t = [] /\ o = Returned tt) c.
Proof. destruct b; repeat split. Qed.

Lemma test_realtime_main_effects key fuel c :
  wp (test_realtime_api.main w key fuel)
     (fun t c' o => realtime_effects key (effects t)) c.
Proof.
  unfold test_realtime_api.main.
  match goal with |- wp _ ?Q _ => set (P := Q) end.
  cbv zeta; repeat wp_step.
  wp_use (test_realtime_connection_runs w key fuel); intros [He _].
  repeat wp_step.
  all: try (wp_use analyze_results_runs; intros [Ha ->]; repeat wp_step).
  all: subst P; cbv beta; effects_of_parts; cbn; now rewrite ?app_nil_r.
Qed.

Lemma test_realtime_main_runs key fuel c :
  wp (test_realtime_api.main w key fuel)
     (fun t c' o =>
        tidy key t
        /\ written (effects t) = []
        /\ timeouts_ok (read_timeouts (effects t))) c.
Proof.
  wp_use test_realtime_main_effects. intros H.
  destruct (realtime_effects_facts H) as (Ht & Hw & Hr).
  auto using tidy_effects.
Qed.

Lemma test_realtime_script_runs fuel c :
  wp (test_realtime_api.script w fuel)
     (fun t _ _ =>
        script_tidy w t /\ written t = []
        /\ timeouts_ok (read_timeouts t)) c.
Proof.
  eapply wp_conseq.
  - apply (@script_runs w (fun key => test_realtime_api.main w key fuel)
             (fun _ es => written es = []
                          /\ timeouts_ok (read_timeouts es))).
    + intros key c0. wp_use test_realtime_main_runs. tauto.
    + split; [reflexivity | now left].
  - cbv beta. intros t _ _ [Ht (es & He & Hw & Hr)].
    split; [exact Ht | ]. rewrite (@written_after_load t es He).
    split; [exact Hw | ].
    now rewrite <- read_timeouts_effects, He.
Qed.

End RealtimeMain.

(* ================================================================== *)
(** * Worlds to run the scripts in *)
(* ================================================================== *)

Lemma offline_raises_Exception_only file : raises_Exception_only (offline file).
Proof.
  split; simpl; intros; try discriminate;
    match goal with H : Fail _ = Fail _ |- _ => injection H as <- end;
    reflexivity.
Qed.

Lemma service_raises_Exception_only file status audio messages :
  (forall n e, messages n = Fail e -> is_Exception e = true) ->
  raises_Exception_only (service file status audio messages).
Proof. intros H. split; simpl; intros; try discriminate. eauto. Qed.

(* ================================================================== *)
(** * The credential *)
(* ================================================================== *)

(** A line without the separator is one field. *)
Lemma split_without sep s : ~ In sep s -> PyStr.split sep s = [s].
Proof.
  induction s as [|c s IH]; intros Hs; [reflexivity | ].
  simpl. destruct (N.eqb_spec c sep) as [->|_].
  - exfalso. apply Hs. now left.
  - rewrite IH; [reflexivity | ]. intros Hin. apply Hs. now right.
Qed.

Lemma startswith_app p s : PyStr.startswith (p ++ s) p = true.
Proof.
  induction p as [|a p IH]; [now destruct s | ].
  simpl. now rewrite N.eqb_refl.
Qed.

(** When the value of the key line holds no ['='], [load_api_key] returns
    the rest of the line, stripped: here [rest] is what follows
    ['OPENAI_API_KEY='] up to and including the end of the line. *)
Lemma scan_lines_plain (before : list pystr) (rest : pystr)
    (after : list pystr) :
  Forall (fun line => PyStr.startswith line OPENAI_API_KEY_eq = false) before ->
  ~ In equals_sign rest ->
  scan_lines (before ++ (OPENAI_API_KEY_eq ++ rest) :: after)
  = Ok (Some (PyStr.strip rest)).
Proof.
  intros Hb Hr. induction Hb as [|line before Hl _ IH].
  - cbn [app scan_lines]. rewrite startswith_app.
    replace (PyStr.split equals_sign (OPENAI_API_KEY_eq ++ rest))
      with [py "OPENAI_API_KEY"; rest]; [reflexivity | ].
    assert (E : OPENAI_API_KEY_eq = py "OPENAI_API_KEY" ++ [equals_sign])
      by reflexivity.
    rewrite E, <- app_assoc.
    assert (K : py "OPENAI_API_KEY"
                = [79; 80; 69; 78; 65; 73; 95; 65; 80; 73; 95; 75; 69; 89]%N)
      by reflexivity.
    rewrite K. cbn -[equals_sign]. unfold equals_sign at 1. cbn.
    now rewrite (@split_without equals_sign rest Hr).
  - cbn [app scan_lines]. now rewrite Hl.
Qed.

(** C1: for the credential file whose only line is
    [OPENAI_API_KEY=sk-abc=def], [load_api_key] returns [sk-abc], not the
    token [sk-abc=def]: [line.split('=')[1]] keeps what lies between the
    first and the second ['=']. *)
Theorem C1_load_api_key_cuts_token_at_equals_sign :
  credential (offline (py "OPENAI_API_KEY=sk-abc=def" ++ [10%N]))
  = Returned (Some (py "sk-abc"))
  /\ py "sk-abc" <> PyStr.strip (py "sk-abc=def" ++ [10%N]).
Proof.
  split; [now vm_compute | ].
  intros H. vm_compute in H. discriminate H.
Qed.

(** X1: What [load_api_key] returns when the value of the key line holds no
    ['=']: the value, stripped. *)
Lemma credential_plain w s (before : list pystr) (rest : pystr)
    (after : list pystr) :
  env_file w = Answer s ->
  PyStr.readlines (PyStr.universal_newlines s)
  = before ++ (OPENAI_API_KEY_eq ++ rest) :: after ->
  Forall (fun line => PyStr.startswith line OPENAI_API_KEY_eq = false) before ->
  ~ In equals_sign rest ->
  credential w = Returned (Some (PyStr.strip rest)).
Proof.
  intros Hf Hl Hb Hr.
  unfold credential, load_api_key, bind, open_read. rewrite Hf.
  cbv beta iota. rewrite Hl, (@scan_lines_plain before rest after Hb Hr).
  reflexivity.
Qed.

Lemma credential_plain_witness :
  credential (offline env_sk_test) = Returned (Some (py "sk-test")).
Proof.
  apply (@credential_plain (offline env_sk_test) env_sk_test []
           (py "sk-test" ++ [10%N]) []).
  - reflexivity.
  - reflexivity.
  - constructor.
  - vm_compute. intuition discriminate.
Defined.

(* ================================================================== *)
(** * Failures are caught *)
(* ================================================================== *)



Lemma get_VDict d k v :
  PyOps.get (VDict d) k v
  = Ok (match PyOps.lookup k d with Some x => x | None => v end).
Proof. simpl. now destruct (PyOps.lookup k d). Qed.





(* ================================================================== *)
(** * What the scripts leave behind *)
(* ================================================================== *)




(* ================================================================== *)
(** * Nothing is tried twice, and the credential is read once *)
(* ================================================================== *)

(** C8: whatever the outside world does, no script makes the same HTTP
    request or the WebSocket handshake a second time. *)
Theorem C8_no_request_or_handshake_is_repeated w fuel :
  NoDup (attempts (acts (check_api_usage.script w start)))
  /\ NoDup (attempts (acts (test_api.script w start)))
  /\ NoDup (attempts (acts (test_gpt35.script w start)))
  /\ NoDup (attempts (acts (test_realtime_api.script w fuel start))).
Proof.
  destruct (check_api_usage_script_runs w start) as ((_ & _ & _ & H1) & _).
  destruct (test_api_script_runs w start) as ((_ & _ & _ & H2) & _).
  destruct (test_gpt35_script_runs w start) as ((_ & _ & _ & H3) & _).
  destruct (test_realtime_script_runs w fuel start) as ((_ & _ & _ & H4) & _).
  auto.
Qed.

(** C9: every script opens the credential file exactly once, and whatever it
    sends as authorization afterwards is the bearer form of the value
    [load_api_key] returned then. *)
Theorem C9_credential_is_read_once_and_kept w fuel :
  credential_read_once w (acts (check_api_usage.script w start))
  /\ credential_read_once w (acts (test_api.script w start))
  /\ credential_read_once w (acts (test_gpt35.script w start))
  /\ credential_read_once w (acts (test_realtime_api.script w fuel start)).
Proof.
  destruct (check_api_usage_script_runs w start) as ((O1 & _ & A1 & _) & _).
  destruct (test_api_script_runs w start) as ((O2 & _ & A2 & _) & _).
  destruct (test_gpt35_script_runs w start) as ((O3 & _ & A3 & _) & _).
  destruct (test_realtime_script_runs w fuel start)
    as ((O4 & _ & A4 & _) & _).
  unfold credential_read_once. auto 10.
Qed.

(* ================================================================== *)
(** * The status diagnostic of [check_api_limits] *)
(* ================================================================== *)

(** C7, as stated, fails: on status 500 none of the three lines is
    printed. *)
Lemma C7_status_500_prints_no_canned_line :
  let w := service env_sk_test 500 [] (fun _ => Fail AsyncioTimeoutError) in
  let key := Some (py "sk-test") in
  (exists r, http w 0 (model_request key) = Answer r /\ status_code r = 500)
  /\ canned_lines (acts (check_api_usage.check_api_limits w key start)) = 0%nat.
Proof. cbv zeta. split; [eexists; split; reflexivity | now vm_compute]. Qed.

Lemma Zeqb_true_iff (x n : Z) : (x =? n) = true <-> x = n.
Proof. apply Z.eqb_eq. Qed.

(** C7, amended: when the model-retrieval request is answered, each canned
    line is printed exactly for its status code, 200, 401 or 429; so at most
    one of them is printed, and none for any other status. *)
Theorem C7_canned_line_follows_status w key c r :
  http w (n_http c) (model_request key) = Answer r ->
  let t := acts (check_api_usage.check_api_limits w key c) in
  (prints_lit valid_line t = true <-> status_code r = 200)
  /\ (prints_lit invalid_line t = true <-> status_code r = 401)
  /\ (prints_lit rate_line t = true <-> status_code r = 429)
  /\ (canned_lines t <= 1)%nat.
Proof.
  intros Hr t.
  destruct (check_api_limits_runs w key c) as (_ & _ & H).
  rewrite Hr in H. destruct H as (H1 & H2 & H3). subst t.
  unfold canned_lines. cbn [filter]. rewrite H1, H2, H3, <- !Zeqb_true_iff.
  repeat split; try tauto.
  destruct (Z.eqb_spec (status_code r) 200) as [->|_]; [cbn; lia | ].
  destruct (Z.eqb_spec (status_code r) 401) as [->|_]; [cbn; lia | ].
  destruct (status_code r =? 429); cbn; lia.
Qed.

Lemma C7_canned_line_follows_status_witness :
  let w := service env_sk_test 401 [] (fun _ => Fail AsyncioTimeoutError) in
  let key := Some (py "sk-test") in
  let t := acts (check_api_usage.check_api_limits w key start) in
  prints_lit invalid_line t = true /\ (canned_lines t <= 1)%nat.
Proof.
  cbv zeta.
  destruct (@C7_canned_line_follows_status
              (service env_sk_test 401 [] (fun _ => Fail AsyncioTimeoutError))
              (Some (py "sk-test")) start
              {| status_code := 401; body := no_body; content := [];
                 headers := [] |} eq_refl) as (_ & H2 & _ & H4).
  split; [apply H2; reflexivity | exact H4].
Defined.

(* ================================================================== *)
(** * The realtime exchange *)
(* ================================================================== *)





(** C6: in every run of the realtime script the reads from the connection
    are the first one with a timeout of 5 seconds and, after it, only reads
    with a timeout of 10 seconds. *)
Theorem C6_reads_wait_5_then_10_seconds w fuel :
  timeouts_ok (read_timeouts (acts (test_realtime_api.script w fuel start))).
Proof.
  destruct (test_realtime_script_runs w fuel start) as (_ & _ & H). exact H.
Qed.

(** C4, as stated, fails: when the first reply is a [session.created] event
    whose [session] is not an object, [session.get] raises, and the script
    sends nothing more. *)
Lemma C4_no_follow_up_after_session_without_object :
  event_type (session_created VNone) = Ok (VStr (py "session.created"))
  /\ ws_traffic (acts (test_realtime_api.test_realtime_connection
                         broken_session (Some (py "sk-test")) 5 start))
     = [ASend test_realtime_api.session_update; ARecv 5].
Proof. split; now vm_compute. Qed.

(** C4, amended: when the script has connected and sent its session update,
    the first reply is a [session.created] event whose [session] is an
    object with an [id] and a [model] that can be printed, and the two sends
    do not fail, then what goes over the connection is: the session update,
    the read of the first reply, the conversation item, the response
    trigger, and after these only reads of the response loop. *)
Theorem C4_two_follow_ups_then_reads w key fuel c d event session :
  PyOps.truthy key = true ->
  ssl_context w = Answer tt ->
  ws_connect w = Answer tt ->
  ws_send w (n_send c) test_realtime_api.session_update = Answer tt ->
  ws_recv w (n_recv c) = Answer d ->
  json_loads d = Ok event ->
  PyOps.getitem event (py "type") = Ok (VStr (py "session.created")) ->
  PyOps.get event (py "session") (VDict []) = Ok (VDict session) ->
  encodable (dict_get session (py "id")) = true ->
  encodable (dict_get session (py "model")) = true ->
  ws_send w (S (n_send c)) test_realtime_api.test_message = Answer tt ->
  ws_send w (S (S (n_send c))) test_realtime_api.create_response = Answer tt ->
  exists k,
    ws_traffic (acts (test_realtime_api.test_realtime_connection w key fuel c))
    = [ASend test_realtime_api.session_update; ARecv 5;
       ASend test_realtime_api.test_message;
       ASend test_realtime_api.create_response]
      ++ repeat (ARecv 10) k.
Proof.
  intros Hk Hssl Hcon Hs0 Hr0 Hj Hty Hse Hid Hmodel Hs1 Hs2.
  destruct key as [p|]; [ | discriminate Hk].
  unfold dict_get in Hid, Hmodel.
  assert (E0 : no_surrogate (py "session.created") = true) by reflexivity.
  assert (E1 : PyOps.eq_str (VStr (py "session.created")) (py "error") = false)
    by reflexivity.
  assert (E2 : PyOps.eq_str (VStr (py "session.created"))
                 (py "session.created") = true) by reflexivity.
  change (wp (test_realtime_api.test_realtime_connection w (Some p) fuel)
            (fun t _ _ => exists k, ws_traffic t = exchange k) c).
  unfold test_realtime_api.test_realtime_connection.
  rewrite Hk. cbn [negb].
  match goal with |- wp _ ?Q _ => set (P := Q) end.
  cbv zeta.
  repeat first [rewrite get_VDict | wp_step].
  wp_use (response_loop_runs w fuel); intros (k & He & _).
  repeat first [handle | wp_step].
  all: subst P; cbv beta; exists k; rewrite <- ws_traffic_effects;
    effects_of_parts; cbn; rewrite ?app_nil_r.
  all: first [exact (ws_traffic_closed (Some p) k)
             | exact (ws_traffic_open (Some p) k)].
Qed.

Lemma C4_two_follow_ups_then_reads_witness :
  exists k,
    ws_traffic (acts (test_realtime_api.test_realtime_connection
                        good_session (Some (py "sk-test")) 5 start))
    = [ASend test_realtime_api.session_update; ARecv 5;
       ASend test_realtime_api.test_message;
       ASend test_realtime_api.create_response]
      ++ repeat (ARecv 10) k.
Proof.
  apply (@C4_two_follow_ups_then_reads good_session (Some (py "sk-test")) 5
           start
           (session_created (VDict [(py "id", VStr (py "sess_1"))]))
           (VDict [(py "type", VStr (py "session.created"));
                   (py "session", VDict [(py "id", VStr (py "sess_1"))])])
           [(py "id", VStr (py "sess_1"))]);
    reflexivity.
Defined.

(* ================================================================== *)
(** * The summary of the API test suite *)
(* ================================================================== *)

(** C10, as stated, fails: with a credential and no network, the summary
    reports 2 of 5 checks passed, 40 per cent. *)
Lemma C10_offline_summary_reports_two_of_five :
  raises_Exception_only (offline env_sk_test)
  /\ In (APrint (test_api.total_line 2 5 40%float) newline)
        (acts (test_api.main (offline env_sk_test) (Some (py "sk-test"))
                 start)).
Proof.
  split; [apply offline_raises_Exception_only | ].
  vm_compute. repeat first [left; reflexivity | right].
Qed.

(** C10, amended: the Whisper check and the complete-flow check return
    [True] whatever happens and make no request; so in a world whose
    failures are [Exception]s and with a credential at hand, [main] prints
    a summary line that reports between 2 and 5 of the 5 checks as passed, a
    rate of 40 per cent at least. *)
Theorem C10_summary_reports_two_of_five_at_least w key c :
  raises_Exception_only w ->
  PyOps.truthy key = true ->
  (out (test_api.test_whisper c) = Returned true
   /\ attempts (acts (test_api.test_whisper c)) = [])
  /\ (out (test_api.test_complete_flow c) = Returned true
      /\ attempts (acts (test_api.test_complete_flow c)) = [])
  /\ exists k,
       In (APrint (test_api.total_line k 5 (test_api.success_rate_of k 5))
             newline)
          (acts (test_api.main w key c))
       /\ (2 <= k <= 5)%nat
       /\ (40 <=? test_api.success_rate_of k 5)%float = true.
Proof.
  intros Hw Hk. repeat split.
  destruct (@test_api_main_summary w key c Hw Hk) as (_ & r1 & r2 & r4 & H).
  exists (test_api.total_passed_of (results_of r1 r2 r4)).
  split; [exact H | apply summary_bounds].
Qed.

Lemma C10_summary_reports_two_of_five_at_least_witness :
  exists k,
    In (APrint (test_api.total_line k 5 (test_api.success_rate_of k 5))
          newline)
       (acts (test_api.main (offline env_sk_test) (Some (py "sk-test"))
                start))
    /\ (2 <= k <= 5)%nat
    /\ (40 <=? test_api.success_rate_of k 5)%float = true.
Proof.
  apply (@C10_summary_reports_two_of_five_at_least (offline env_sk_test)
           (Some (py "sk-test")) start
           (offline_raises_Exception_only env_sk_test) eq_refl).
Defined.

(* ================================================================== *)
(** * The credential, whatever the file holds *)
(* ================================================================== *)

Lemma split_hd sep s :
  hd_error (PyStr.split sep s) = Some (before_first sep s).
Proof.
  induction s as [|c s IH]; [reflexivity | ].
  simpl. destruct (c =? sep)%N; [reflexivity | ].
  destruct (PyStr.split sep s) as [|f fs]; [discriminate IH | ].
  simpl in *. congruence.
Qed.

(** [split] cuts at the first separator. *)
Lemma split_at_first sep a b :
  ~ In sep a -> PyStr.split sep (a ++ sep :: b) = a :: PyStr.split sep b.
Proof.
  induction a as [|c a IH]; intros Ha.
  - simpl. now rewrite N.eqb_refl.
  - simpl. destruct (N.eqb_spec c sep) as [->|_].
    + exfalso. apply Ha. now left.
    + rewrite IH; [reflexivity | ]. intros Hin. apply Ha. now right.
Qed.

Lemma startswith_inv s p :
  PyStr.startswith s p = true -> exists rest, s = p ++ rest.
Proof.
  revert s. induction p as [|a p IH]; intros s H; [now exists s | ].
  destruct s as [|b s]; [discriminate H | ].
  simpl in H. apply andb_prop in H as [E H]. apply N.eqb_eq in E as ->.
  destruct (IH s H) as (rest & ->). now exists rest.
Qed.

(** Field 1 of a line that starts with [OPENAI_API_KEY=]. *)
Lemma key_line_field rest :
  nth_error (PyStr.split equals_sign (OPENAI_API_KEY_eq ++ rest)) 1
  = Some (before_first equals_sign rest).
Proof.
  assert (E : OPENAI_API_KEY_eq = py "OPENAI_API_KEY" ++ [equals_sign])
    by reflexivity.
  rewrite E, <- app_assoc. cbn [app].
  rewrite split_at_first.
  - cbn [nth_error]. apply split_hd.
  - vm_compute. intuition discriminate.
Qed.

Lemma scan_lines_key_line (before : list pystr) (rest : pystr)
    (after : list pystr) :
  no_key_line before ->
  scan_lines (before ++ (OPENAI_API_KEY_eq ++ rest) :: after)
  = Ok (Some (PyStr.strip (before_first equals_sign rest))).
Proof.
  intros Hb. induction Hb as [|line before Hl _ IH].
  - cbn [app scan_lines]. now rewrite startswith_app, key_line_field.
  - cbn [app scan_lines]. now rewrite Hl.
Qed.

Lemma scan_lines_no_key_line lines :
  no_key_line lines -> scan_lines lines = Ok None.
Proof.
  intros H. induction H as [|line lines Hl _ IH]; [reflexivity | ].
  cbn [scan_lines]. now rewrite Hl.
Qed.

(** The lines of a file either hold no key line, or split at the first. *)
Lemma first_key_line (lines : list pystr) :
  no_key_line lines
  \/ exists (before : list pystr) (rest : pystr) (after : list pystr),
       lines = before ++ (OPENAI_API_KEY_eq ++ rest) :: after
       /\ no_key_line before.
Proof.
  induction lines as [|line lines IH]; [left; constructor | ].
  destruct (PyStr.startswith line OPENAI_API_KEY_eq) eqn:E.
  - right. destruct (@startswith_inv _ _ E) as (rest & ->).
    exists [], rest, lines. split; [reflexivity | constructor].
  - destruct IH as [IH | (before & rest & after & -> & Hb)].
    + left. now constructor.
    + right. exists (line :: before), rest, after.
      split; [reflexivity | now constructor].
Qed.

Lemma credential_of_lines w s :
  env_file w = Answer s ->
  credential w = match scan_lines (lines_of s) with
                 | Ok k => Returned k
                 | Err e => Raised (Builtin e)
                 end.
Proof.
  intros Hf. unfold credential, load_api_key, bind, open_read, lines_of.
  rewrite Hf. cbv beta iota.
  now destruct (scan_lines _).
Qed.

Lemma lstrip_suffix s : exists p, s = p ++ PyStr.lstrip s.
Proof.
  induction s as [|c s (p & IH)]; [now exists [] | ].
  simpl. destruct (PyStr.isspace c).
  - exists (c :: p). simpl. now f_equal.
  - now exists [].
Qed.

Lemma lstrip_head s c r : PyStr.lstrip s = c :: r -> PyStr.isspace c = false.
Proof.
  induction s as [|d s IH]; [discriminate | ].
  simpl. destruct (PyStr.isspace d) eqn:E; [exact IH | ].
  intros H. injection H as -> _. exact E.
Qed.

Lemma rstrip_prefix s : exists q, s = PyStr.rstrip s ++ q.
Proof.
  unfold PyStr.rstrip. destruct (lstrip_suffix (rev s)) as (p & H).
  exists (rev p). rewrite <- rev_app_distr, <- H. symmetry. apply rev_involutive.
Qed.

Lemma rstrip_last s c k : PyStr.rstrip s = k ++ [c] -> PyStr.isspace c = false.
Proof.
  unfold PyStr.rstrip. intros H.
  apply (f_equal (@rev N)) in H. rewrite rev_involutive, rev_app_distr in H.
  exact (@lstrip_head _ _ _ H).
Qed.

Lemma strip_stripped s : stripped (PyStr.strip s).
Proof.
  unfold stripped, PyStr.strip. split; intros c k' H.
  - destruct (rstrip_prefix (PyStr.lstrip s)) as (q & Hq).
    rewrite H in Hq. exact (@lstrip_head _ _ _ Hq).
  - exact (@rstrip_last _ _ _ H).
Qed.

Lemma strip_In s c : In c (PyStr.strip s) -> In c s.
Proof.
  unfold PyStr.strip. intros H.
  destruct (rstrip_prefix (PyStr.lstrip s)) as (q & Hq).
  destruct (lstrip_suffix s) as (p & Hp).
  rewrite Hp. apply in_or_app. right. rewrite Hq. apply in_or_app. now left.
Qed.

Lemma before_first_In sep s : ~ In sep (before_first sep s).
Proof.
  induction s as [|c s IH]; [intros [] | ].
  simpl. destruct (N.eqb_spec c sep) as [->|Hn]; [intros [] | ].
  intros [H|H]; [now apply Hn | now apply IH].
Qed.

(** X2: [load_api_key] never stumbles over its own indexing: a line that starts
    with [OPENAI_API_KEY=] has a field 1.  It returns whenever the file can
    be read, and passes on the error of [open] otherwise. *)
Theorem load_api_key_returns_unless_open_fails w c :
  match env_file w with
  | Answer _ => exists k, out (load_api_key w c) = Returned k
  | Fail e => out (load_api_key w c) = Raised e
  end.
Proof.
  unfold load_api_key, bind, open_read, out.
  destruct (env_file w) as [s|e]; [ | reflexivity].
  cbv beta iota.
  destruct (first_key_line (PyStr.readlines (PyStr.universal_newlines s)))
    as [H | (before & rest & after & -> & Hb)].
  - exists None. now rewrite (@scan_lines_no_key_line _ H).
  - eexists. now rewrite (@scan_lines_key_line before rest after Hb).
Qed.

(** X3: [load_api_key] returns [None] exactly when no line of the file starts
    with [OPENAI_API_KEY=]. *)
Theorem load_api_key_none_iff_no_key_line w s :
  env_file w = Answer s ->
  (credential w = Returned None <-> no_key_line (lines_of s)).
Proof.
  intros Hf. rewrite (@credential_of_lines w s Hf). split.
  - intros H.
    destruct (first_key_line (lines_of s))
      as [Hn | (before & rest & after & E & Hb)]; [exact Hn | ].
    rewrite E, (@scan_lines_key_line before rest after Hb) in H.
    discriminate H.
  - intros H. now rewrite (@scan_lines_no_key_line _ H).
Qed.

Lemma load_api_key_none_iff_no_key_line_witness :
  credential (offline (py "OPENAI_KEY=sk-test" ++ [10%N])) = Returned None
  <-> no_key_line (lines_of (py "OPENAI_KEY=sk-test" ++ [10%N])).
Proof.
  apply (@load_api_key_none_iff_no_key_line
           (offline (py "OPENAI_KEY=sk-test" ++ [10%N]))
           (py "OPENAI_KEY=sk-test" ++ [10%N])).
  reflexivity.
Defined.

(** X4: The first line that starts with [OPENAI_API_KEY=] decides: what
    [load_api_key] returns is the text between that prefix and the next
    ['='] (or the end of the line), stripped; the lines after it are not
    looked at. *)
Theorem load_api_key_reads_first_key_line w s (before : list pystr)
    (rest : pystr) (after : list pystr) :
  env_file w = Answer s ->
  lines_of s = before ++ (OPENAI_API_KEY_eq ++ rest) :: after ->
  no_key_line before ->
  credential w
  = Returned (Some (PyStr.strip (before_first equals_sign rest))).
Proof.
  intros Hf Hl Hb.
  now rewrite (@credential_of_lines w s Hf), Hl,
    (@scan_lines_key_line before rest after Hb).
Qed.

Lemma load_api_key_reads_first_key_line_witness :
  credential (offline (py "# keys" ++ [10%N]
                       ++ py "OPENAI_API_KEY= sk-one " ++ [13; 10]%N
                       ++ py "OPENAI_API_KEY=sk-two" ++ [10%N]))
  = Returned (Some (py "sk-one")).
Proof.
  apply (@load_api_key_reads_first_key_line
           (offline (py "# keys" ++ [10%N]
                     ++ py "OPENAI_API_KEY= sk-one " ++ [13; 10]%N
                     ++ py "OPENAI_API_KEY=sk-two" ++ [10%N]))
           (py "# keys" ++ [10%N]
            ++ py "OPENAI_API_KEY= sk-one " ++ [13; 10]%N
            ++ py "OPENAI_API_KEY=sk-two" ++ [10%N])
           [py "# keys" ++ [10%N]]
           (py " sk-one " ++ [10%N])
           [py "OPENAI_API_KEY=sk-two" ++ [10%N]]).
  - reflexivity.
  - reflexivity.
  - repeat constructor.
Defined.

(** X5: Whatever the file holds, a credential that [load_api_key] returns has no
    ['='] in it and neither starts nor ends with white space. *)
Theorem credential_has_no_equals_sign_nor_outer_space w k :
  credential w = Returned (Some k) ->
  ~ In equals_sign k /\ stripped k.
Proof.
  intros H.
  destruct (env_file w) as [s|e] eqn:Hf.
  - rewrite (@credential_of_lines w s Hf) in H.
    destruct (first_key_line (lines_of s))
      as [Hn | (before & rest & after & E & Hb)].
    + rewrite (@scan_lines_no_key_line _ Hn) in H. discriminate H.
    + rewrite E, (@scan_lines_key_line before rest after Hb) in H.
      injection H as <-. split; [ | apply strip_stripped].
      intros Hin. apply strip_In in Hin. exact (@before_first_In _ _ Hin).
  - unfold credential, load_api_key, bind, open_read, out in H.
    rewrite Hf in H. discriminate H.
Qed.

Lemma credential_has_no_equals_sign_nor_outer_space_witness :
  ~ In equals_sign (py "sk-abc") /\ stripped (py "sk-abc").
Proof.
  apply (@credential_has_no_equals_sign_nor_outer_space
           (offline (py "OPENAI_API_KEY=sk-abc=def" ++ [10%N])) (py "sk-abc")).
  reflexivity.
Defined.

(* ================================================================== *)
(** * Scripts without a file, scripts without a credential *)
(* ================================================================== *)

Lemma script_without_file w (main : option pystr -> M unit) e c :
  env_file w = Fail e ->
  (key <- load_api_key w ;; main key) c = ([AOpenRead env_path], c, Raised e).
Proof.
  intros Hf. unfold bind at 1, load_api_key, bind, open_read. now rewrite Hf.
Qed.

(** X6: When the [.env] cannot be opened, each script ends with the error of
    [open] at once: nothing is printed and nothing is sent. *)
Theorem scripts_stop_when_env_cannot_be_opened w e fuel c :
  env_file w = Fail e ->
  stopped_at_open e c (check_api_usage.script w c)
  /\ stopped_at_open e c (test_gpt35.script w c)
  /\ stopped_at_open e c (test_api.script w c)
  /\ stopped_at_open e c (test_realtime_api.script w fuel c).
Proof.
  intros Hf. refine (conj _ (conj _ (conj _ _)));
    apply script_without_file; exact Hf.
Qed.

Lemma scripts_stop_when_env_cannot_be_opened_witness :
  let w := {| env_file := Fail (OtherException "FileNotFoundError");
              now := []; time_time := fun _ => 0%float;
              http := fun _ _ => Fail (OtherException "ConnectionError");
              ssl_context := Answer tt; ws_connect := Answer tt;
              ws_send := fun _ _ => Answer tt;
              ws_recv := fun _ => Fail AsyncioTimeoutError;
              write_file := fun _ _ => Answer tt |} in
  stopped_at_open (OtherException "FileNotFoundError") start
    (test_api.script w start).
Proof.
  cbv zeta.
  refine (proj1 (proj2 (proj2
    (@scripts_stop_when_env_cannot_be_opened _
       (OtherException "FileNotFoundError") 0 start _)))).
  reflexivity.
Defined.

Lemma main_without_key_check_api_usage w k c :
  PyOps.truthy k = false ->
  wp (check_api_usage.main w k)
     (fun t _ o => o = Returned tt /\ effects t = []) c.
Proof.
  intros Hk. unfold check_api_usage.main. rewrite Hk. cbn [negb].
  wp_run. split; reflexivity.
Qed.

Lemma main_without_key_test_realtime_api w k fuel c :
  PyOps.truthy k = false ->
  wp (test_realtime_api.main w k fuel)
     (fun t _ o => o = Returned tt /\ effects t = []) c.
Proof.
  intros Hk.
  unfold test_realtime_api.main, test_realtime_api.test_realtime_connection,
    test_realtime_api.analyze_results.
  rewrite Hk. cbn [negb].
  wp_run. split; reflexivity.
Qed.

Lemma only_read_env_intro w (main : option pystr -> M unit) k c :
  credential w = Returned k ->
  wp (main k) (fun t _ o => o = Returned tt /\ effects t = []) c ->
  only_read_env ((key <- load_api_key w ;; main key) c).
Proof.
  intros Hk [Ho He]. rewrite (@script_with_credential w main k c Hk).
  split; [exact Ho | ]. cbn [acts fst]. cbn [effects filter is_print negb].
  fold (effects (acts (main k c))). now rewrite He.
Qed.

(** X7: Without a credential (no key line in the [.env], or one with an empty
    value) the three scripts with a [main] print their notice and return:
    no request, no handshake, no file written. *)
Theorem no_credential_no_network w k fuel c :
  credential w = Returned k -> PyOps.truthy k = false ->
  only_read_env (check_api_usage.script w c)
  /\ only_read_env (test_api.script w c)
  /\ only_read_env (test_realtime_api.script w fuel c).
Proof.
  intros Hc Hk. refine (conj _ (conj _ _)).
  - apply (@only_read_env_intro w (check_api_usage.main w) k c Hc).
    now apply main_without_key_check_api_usage.
  - apply (@only_read_env_intro w (test_api.main w) k c Hc).
    now apply main_without_key_test_api.
  - apply (@only_read_env_intro w
             (fun key => test_realtime_api.main w key fuel) k c Hc).
    now apply main_without_key_test_realtime_api.
Qed.

Lemma no_credential_no_network_witness :
  only_read_env
    (test_realtime_api.script
       (service (py "OPENAI_API_KEY=" ++ [10%N]) 200 [] (fun _ => Answer done_event))
       5 start).
Proof.
  refine (proj2 (proj2
    (@no_credential_no_network
       (service (py "OPENAI_API_KEY=" ++ [10%N]) 200 []
                (fun _ => Answer done_event))
       (Some []) 5 start _ _))); reflexivity.
Defined.

(** X8: [test_gpt35.py] has no such guard: whatever [load_api_key] returned, it
    posts its one request; when the [.env] has no key line the request
    carries the header [Authorization: Bearer None]. *)
Theorem test_gpt35_posts_without_credential w c :
  credential w = Returned None ->
  effects (acts (test_gpt35.script w c))
  = [AOpenRead env_path; AHttp (gpt35_request None)]
  /\ authorizations (acts (test_gpt35.script w c)) = [py "Bearer None"].
Proof.
  intros Hc.
  assert (E : effects (acts (test_gpt35.script w c))
              = [AOpenRead env_path; AHttp (gpt35_request None)]).
  { unfold test_gpt35.script.
    rewrite (@script_with_credential w (test_gpt35.body_after_key w) None c Hc).
    cbn [acts fst]. cbn [effects filter is_print negb].
    fold (effects (acts (test_gpt35.body_after_key w None c))).
    destruct (body_after_key_runs w None c) as [_ He]. now rewrite He. }
  split; [exact E | ]. now rewrite <- authorizations_effects, E.
Qed.

Lemma test_gpt35_posts_without_credential_witness :
  authorizations
    (acts (test_gpt35.script (offline (py "OTHER=1" ++ [10%N])) start))
  = [py "Bearer None"].
Proof.
  refine (proj2 (@test_gpt35_posts_without_credential
                   (offline (py "OTHER=1" ++ [10%N])) start _)).
  reflexivity.
Defined.

(* ================================================================== *)
(** * check_api_usage.py: the key analysis and the second request *)
(* ================================================================== *)

Lemma startswith_shorter s p q :
  PyStr.startswith s (p ++ q) = true -> PyStr.startswith s p = true.
Proof.
  revert s. induction p as [|a p IH]; intros s H; [now destruct s | ].
  destruct s as [|b s]; [discriminate H | ].
  simpl in *. apply andb_prop in H as [E H]. rewrite E. simpl. now apply IH.
Qed.

Lemma sk_proj_is_sk k :
  PyStr.startswith k (py "sk-proj-") = true ->
  PyStr.startswith k (py "sk-") = true.
Proof.
  apply (@startswith_shorter k (py "sk-") (py "proj-")).
Qed.

(** X9: For a key that is not empty, [analyze_api_key] returns after naming
    exactly one format, by the prefix of the key ([sk-proj-] before [sk-]),
    and exactly one length class, long for more than 100 characters. *)
Theorem analyze_api_key_names_format_and_length k c :
  k <> [] ->
  let r := check_api_usage.analyze_api_key (Some k) c in
  out r = Returned tt
  /\ prints_lit project_key_line (acts r)
     = PyStr.startswith k (py "sk-proj-")
  /\ prints_lit standard_key_line (acts r)
     = negb (PyStr.startswith k (py "sk-proj-"))
       && PyStr.startswith k (py "sk-")
  /\ prints_lit unusual_key_line (acts r)
     = negb (PyStr.startswith k (py "sk-"))
  /\ prints_lit long_key_line (acts r) = (100 <? List.length k)%nat
  /\ prints_lit short_key_line (acts r) = negb (100 <? List.length k)%nat.
Proof.
  intros Hk. cbv zeta.
  destruct k as [|a k]; [now destruct Hk | ].
  change (wp (check_api_usage.analyze_api_key (Some (a :: k)))
            (fun t _ o =>
               o = Returned tt
               /\ prints_lit project_key_line t
                  = PyStr.startswith (a :: k) (py "sk-proj-")
               /\ prints_lit standard_key_line t
                  = negb (PyStr.startswith (a :: k) (py "sk-proj-"))
                    && PyStr.startswith (a :: k) (py "sk-")
               /\ prints_lit unusual_key_line t
                  = negb (PyStr.startswith (a :: k) (py "sk-"))
               /\ prints_lit long_key_line t
                  = (100 <? List.length (a :: k))%nat
               /\ prints_lit short_key_line t
                  = negb (100 <? List.length (a :: k))%nat) c).
  unfold check_api_usage.analyze_api_key. cbn [PyOps.truthy negb].
  generalize (a :: k). intros key.
  wp_run.
  all: try match goal with
           | H : PyStr.startswith ?s (py "sk-proj-") = true |- _ =>
               rewrite (@sk_proj_is_sk s H)
           end.
  all: repeat split; reflexivity.
Qed.

Lemma analyze_api_key_names_format_and_length_witness :
  prints_lit standard_key_line
    (acts (check_api_usage.analyze_api_key (Some (py "sk-test")) start))
  = true.
Proof.
  assert (H : py "sk-test" <> []) by (vm_compute; discriminate).
  exact (proj1 (proj2 (proj2
    (@analyze_api_key_names_format_and_length (py "sk-test") start H)))).
Defined.



(** X11: The two blocks that [check_api_limits] prints only for a status 429:
    the rate limits when the answer has the header
    [x-ratelimit-limit-requests], in whatever case it is written; the error
    details when the rate limits, if any, have been printed, the body is
    not empty and its error message can be read. *)
Theorem check_api_limits_rate_limit_blocks w key c r :
  http w (n_http c) (model_request key) = Answer r ->
  let t := acts (check_api_usage.check_api_limits w key c) in
  prints_lit rate_limits_heading t
  = (status_code r =? 429) && header_in r "x-ratelimit-limit-requests"
  /\ prints_lit error_details_heading t
     = (status_code r =? 429) && rate_limits_printable r
       && has_error_message r.
Proof.
  intros Hr. cbv zeta.
  change (wp (check_api_usage.check_api_limits w key)
            (fun t _ _ =>
               prints_lit rate_limits_heading t
               = (status_code r =? 429)
                 && header_in r "x-ratelimit-limit-requests"
               /\ prints_lit error_details_heading t
                  = (status_code r =? 429) && rate_limits_printable r
                    && has_error_message r) c).
  unfold model_request, model_url in Hr.
  unfold check_api_usage.check_api_limits, has_error_message,
    rate_limits_printable, rate_limit_message.
  cbn [rate_limit_headers forallb].
  wp_run.
  all: try discriminate.
  all: repeat match goal with
         | H : Answer _ = Answer _ |- _ => injection H as <-
         end.
  all: fix_status.
  all: cbn [result_bind andb];
    repeat match goal with
           | H : ?x = _ |- context [?x] => rewrite H; cbn [result_bind andb]
           end.
  all: split; reflexivity.
Qed.

Lemma check_api_limits_rate_limit_blocks_witness :
  let t := acts (check_api_usage.check_api_limits rate_limited
                   (Some (py "sk-test")) start) in
  prints_lit rate_limits_heading t = true
  /\ prints_lit error_details_heading t = true.
Proof.
  exact (@check_api_limits_rate_limit_blocks
           rate_limited (Some (py "sk-test")) start
           {| status_code := 429;
              body := rate_limit_body;
              content := [];
              headers := [(py "X-RateLimit-Limit-Requests", py "60")] |}
           eq_refl).
Defined.

(* ================================================================== *)
(** * test_gpt35.py: what it reports *)
(* ================================================================== *)

(** X12: [test_gpt35.py], once its request is answered: the line
    [Failed: <status>] is printed exactly for a status other than 200, and
    the success line exactly for a status 200 whose body is JSON holding
    [choices[0].message.content] and [usage.total_tokens]. *)
Theorem test_gpt35_reports_by_status_and_body w key c r :
  http w (n_http c) (gpt35_request key) = Answer r ->
  let t := acts (test_gpt35.body_after_key w key c) in
  prints_starting "❌ Failed: " t = negb (status_code r =? 200)
  /\ (prints_lit gpt35_success_line t = true
      <-> status_code r = 200
          /\ exists fields, gpt35_fields r = Ok fields).
Proof.
  intros Hr. cbv zeta.
  change (wp (test_gpt35.body_after_key w key)
            (fun t _ _ =>
               prints_starting "❌ Failed: " t = negb (status_code r =? 200)
               /\ (prints_lit gpt35_success_line t = true
                   <-> status_code r = 200
                       /\ exists fields, gpt35_fields r = Ok fields)) c).
  unfold gpt35_request in Hr.
  unfold test_gpt35.body_after_key, gpt35_fields.
  wp_run.
  all: try discriminate.
  all: repeat match goal with
         | H : Answer _ = Answer _ |- _ => injection H as <-
         end.
  all: cbn [result_bind];
    repeat match goal with
           | H : ?x = _ |- context [?x] => rewrite H; cbn [result_bind negb]
           end.
  all: split; [reflexivity | ].
  all: split.
  all: first [ intros H; discriminate H
             | intros _; reflexivity
             | intros _; fix_status; split; [reflexivity | eauto]
             | intros [_ (fields & H)]; discriminate H
             | intros [H _]; rewrite H in *; discriminate ].
Qed.

Lemma test_gpt35_reports_by_status_and_body_witness :
  prints_starting "❌ Failed: "
    (acts (test_gpt35.body_after_key
             (service env_sk_test 429 [] (fun _ => Answer done_event))
             (Some (py "sk-test")) start))
  = true.
Proof.
  exact (proj1 (@test_gpt35_reports_by_status_and_body
                  (service env_sk_test 429 [] (fun _ => Answer done_event))
                  (Some (py "sk-test")) start
                  {| status_code := 429; body := no_body; content := [];
                     headers := [] |} eq_refl)).
Defined.

(* ================================================================== *)
(** * test_api.py: when a check passes *)
(* ================================================================== *)

Lemma prints_lit_app s t u :
  prints_lit s (t ++ u) = prints_lit s t || prints_lit s u.
Proof. unfold prints_lit. now rewrite printed_app, existsb_app. Qed.

Section TestApiResults.

Variable w : world.
Variable key : option pystr.

Lemma test_connection_result c :
  wp (test_api.test_connection w key)
     (fun t c' o =>
        (o = Returned true
         -> answered_200 w (n_http c) (connection_request key))
        /\ n_http c' = S (n_http c)
        /\ prints_lit all_passed_line t = false) c.
Proof.
  unfold test_api.test_connection, answered_200, connection_request.
  wp_run.
  all: split; [ | split; reflexivity].
  all: try discriminate.
  all: intros _; fix_status; eauto.
Qed.

Lemma test_chat_completion_result c :
  wp (test_api.test_chat_completion w key)
     (fun t c' o =>
        (o = Returned true -> answered_200 w (n_http c) (chat_request key))
        /\ n_http c' = S (n_http c)
        /\ prints_lit all_passed_line t = false) c.
Proof.
  unfold test_api.test_chat_completion, answered_200, chat_request.
  wp_run.
  all: split; [ | split; reflexivity].
  all: try discriminate.
  all: intros _; fix_status; eauto.
Qed.

Lemma test_tts_result c :
  wp (test_api.test_tts w key)
     (fun t c' o =>
        (o = Returned true
         <-> exists r, http w (n_http c) (tts_request key) = Answer r
                       /\ status_code r = 200
                       /\ write_file w test_api.output_path (content r)
                          = Answer tt)
        /\ n_http c' = S (n_http c)
        /\ prints_lit all_passed_line t = false) c.
Proof.
  unfold test_api.test_tts, tts_request.
  wp_run.
  all: split; [ | split; reflexivity].
  all: split.
  all: try solve [intros H; discriminate H].
  all: try solve [intros _; reflexivity].
  all: try solve [intros (r' & H1 & H2 & H3); congruence].
  all: try solve [intros _; fix_status;
                  repeat match goal with u : unit |- _ => destruct u end;
                  eauto].
  all: intros (r' & H1 & H2 & H3); injection H1 as <-;
    match goal with
    | H : (_ =? 200) = false |- _ => apply Z.eqb_neq in H; contradiction
    end.
Qed.

End TestApiResults.

(** X13: [test_tts] passes exactly when its request is answered with status 200
    and the audio is written to [/tmp/tts_test.mp3] without an error. *)
Theorem test_tts_passes_iff_audio_saved w key c :
  out (test_api.test_tts w key c) = Returned true
  <-> exists r, http w (n_http c) (tts_request key) = Answer r
                /\ status_code r = 200
                /\ write_file w test_api.output_path (content r) = Answer tt.
Proof. exact (proj1 (test_tts_result w key c)). Qed.


Section TestConnectionModels.

Variable w : world.
Variable key : option pystr.

Lemma test_connection_models c :
  wp (test_api.test_connection w key)
     (fun t _ o =>
        (o = Returned true
         <-> exists r, http w (n_http c) (connection_request key) = Answer r
                       /\ status_code r = 200
                       /\ exists ids, model_ids_of r = Ok ids)
        /\ forall r ids,
             http w (n_http c) (connection_request key) = Answer r ->
             status_code r = 200 ->
             model_ids_of r = Ok ids ->
             prints_lit whisper_line t
             = PyOps.contains ids (py "whisper-1")
             /\ prints_lit gpt4_line t
                = PyOps.contains ids (py "gpt-4-turbo-preview")
                  || PyOps.contains ids (py "gpt-4")
             /\ prints_lit tts_line t
                = PyOps.contains ids (py "tts-1-hd")
                  || PyOps.contains ids (py "tts-1")) c.
Proof.
  unfold test_api.test_connection, connection_request, model_ids_of.
  wp_run.
  all: split; [split | intros r ids H1 H2 H3].
  all: try solve [intros H; discriminate H].
  all: try solve [intros (r' & H1 & _); discriminate H1].
  all: try solve [discriminate H1].
  all: try solve [intros (r' & H1 & H2 & _); injection H1 as <-;
                  match goal with
                  | H : (_ =? 200) = false |- _ =>
                      apply Z.eqb_neq in H; contradiction
                  end].
  all: try solve [injection H1 as <-;
                  match goal with
                  | H : (_ =? 200) = false |- _ =>
                      apply Z.eqb_neq in H; contradiction
                  end].
  all: try solve [intros (r' & H1 & _ & (ids & H3)); injection H1 as <-;
                  cbn [result_bind] in H3;
                  repeat match goal with
                         | H : ?x = _ , H' : context [?x] |- _ =>
                             rewrite H in H'; cbn [result_bind] in H'
                         end;
                  discriminate H3].
  all: try solve [injection H1 as <-;
                  cbn [result_bind] in H3;
                  repeat match goal with
                         | H : ?x = _ , H' : context [?x] |- _ =>
                             rewrite H in H'; cbn [result_bind] in H'
                         end;
                  first [ discriminate H3
                        | injection H3 as <-;
                          repeat match goal with
                                 | H : ?x = _ |- context [?x] => rewrite H
                                 end;
                          repeat split; reflexivity ]].
  all: try solve [intros _; eexists; split; [reflexivity | ];
                  fix_status; split; [reflexivity | ];
                  cbn [result_bind];
                  repeat match goal with
                         | H : ?x = _ |- context [?x] =>
                             rewrite H; cbn [result_bind]
                         end;
                  eauto].
  all: try solve [intros _; reflexivity].
Qed.

End TestConnectionModels.

(** X15: [test_connection] passes exactly when its request is answered with
    status 200 and a body whose [data] can be measured and iterated, every
    entry holding an [id]. *)
Theorem test_connection_passes_iff w key c :
  out (test_api.test_connection w key c) = Returned true
  <-> exists r, http w (n_http c) (connection_request key) = Answer r
                /\ status_code r = 200
                /\ exists ids, model_ids_of r = Ok ids.
Proof. exact (proj1 (test_connection_models w key c)). Qed.

(** X16: After such an answer [test_connection] names the models it found: the
    Whisper line for [whisper-1], the GPT-4 line for [gpt-4-turbo-preview]
    or [gpt-4], the TTS line for [tts-1-hd] or [tts-1], each printed exactly
    when one of its identifiers is listed. *)
Theorem test_connection_names_the_models_listed w key c r ids :
  http w (n_http c) (connection_request key) = Answer r ->
  status_code r = 200 ->
  model_ids_of r = Ok ids ->
  let t := acts (test_api.test_connection w key c) in
  prints_lit whisper_line t = PyOps.contains ids (py "whisper-1")
  /\ prints_lit gpt4_line t
     = PyOps.contains ids (py "gpt-4-turbo-preview")
       || PyOps.contains ids (py "gpt-4")
  /\ prints_lit tts_line t
     = PyOps.contains ids (py "tts-1-hd") || PyOps.contains ids (py "tts-1").
Proof.
  intros H1 H2 H3. exact (proj2 (test_connection_models w key c) r ids H1 H2 H3).
Qed.

Lemma test_connection_names_the_models_listed_witness :
  let t := acts (test_api.test_connection healthy (Some (py "sk-test")) start) in
  prints_lit whisper_line t = true
  /\ prints_lit gpt4_line t = true
  /\ prints_lit tts_line t = false.
Proof.
  exact (@test_connection_names_the_models_listed
           healthy (Some (py "sk-test")) start
           {| status_code := 200; body := healthy_body; content := audio;
              headers := [] |}
           [VStr (py "whisper-1"); VStr (py "gpt-4")]
           eq_refl eq_refl eq_refl).
Defined.

(* ================================================================== *)
(** * test_api.py: the summary *)
(* ================================================================== *)

Lemma ends_with_refl l : ends_with l l.
Proof. now exists []. Qed.

Lemma ends_with_app l p t : ends_with l t -> ends_with l (p ++ t).
Proof. intros (t' & ->). exists (p ++ t'). now rewrite app_assoc. Qed.

Lemma for_results_acts n (r : bool) l c :
  acts (test_api.for_results ((n, r) :: l) c)
  = APrint [Lit "   "; Lit n; Lit ": ";
            Lit (if r then "✅ PASS" else "❌ FAIL")] newline
    :: acts (test_api.for_results l c).
Proof.
  cbn [test_api.for_results]. cbv zeta. unfold bind, print, print_end.
  cbn [printable piece_ok].
  now destruct (test_api.for_results l c) as [[t c'] [u|e|]].
Qed.

(** X17: The summary marks as passed as many checks as it counts. *)
Theorem for_results_marks_what_it_counts l c :
  pass_lines (acts (test_api.for_results l c)) = test_api.total_passed_of l
  /\ List.length (printed (acts (test_api.for_results l c))) = List.length l.
Proof.
  induction l as [|[n r] l [IH1 IH2]]; [split; reflexivity | ].
  rewrite for_results_acts.
  unfold pass_lines, test_api.total_passed_of in *.
  cbn [printed flat_map app filter is_pass_line snd List.length].
  fold (printed (acts (test_api.for_results l c))).
  split; [ | now rewrite IH2].
  destruct r; cbn [PrimString.eqb List.length]; [ | exact IH1].
  change (PrimString.eqb "✅ PASS" "✅ PASS") with true.
  cbn [List.length]. now rewrite IH1.
Qed.

Section TestApiVerdict.

Variable w : world.
Variable key : option pystr.

Ltac decide_rate :=
  repeat match goal with
         | H : (_ =? _)%float = _ |- _ => vm_compute in H; try discriminate H; clear H
         | H : (_ <=? _)%float = _ |- _ => vm_compute in H; try discriminate H; clear H
         end.

Lemma test_api_main_all_passed c :
  wp (test_api.main w key)
     (fun t _ _ =>
        prints_lit all_passed_line t = true ->
        answered_200 w (n_http c) (connection_request key)
        /\ answered_200 w (S (n_http c)) (chat_request key)
        /\ answered_200 w (S (S (n_http c))) (tts_request key)) c.
Proof.
  unfold test_api.main, test_api.test_whisper, test_api.test_complete_flow,
    test_api.calculate_costs.
  cbn [test_api.for_steps test_api.steps].
  match goal with |- wp _ ?Q _ => set (P := Q) end.
  cbv zeta; repeat wp_step.
  all: try (wp_use test_connection_result; intros (H1 & N1 & P1);
            repeat wp_step).
  all: try (wp_use test_chat_completion_result; intros (H2 & N2 & P2);
            repeat wp_step).
  all: try (wp_use test_tts_result; intros (H3 & N3 & P3); repeat wp_step;
            cbn [test_api.for_results]; repeat wp_step).
  all: subst P; cbv beta.
  all: rewrite ?prints_lit_app, ?P1, ?P2, ?P3.
  all: try solve [intros H; vm_compute in H; discriminate H].
  all: repeat match goal with b : bool |- _ => destruct b end; decide_rate.
  all: try solve [intros H; vm_compute in H; discriminate H].
  all: intros _; cbn [n_http bump_http bump_clock] in *;
    rewrite ?N1, ?N2 in *.
  all: refine (conj (H1 eq_refl) (conj (H2 eq_refl) _)).
  all: destruct (proj1 H3 eq_refl) as (r & A & B & _); now exists r.
Qed.

End TestApiVerdict.

(** X18: [test_api.py] prints [All tests passed! The app is ready to use.] only
    when its three requests (models, chat completion, speech) were each
    answered with status 200. *)
Theorem all_tests_passed_only_after_three_200 w key c :
  prints_lit all_passed_line (acts (test_api.main w key c)) = true ->
  answered_200 w (n_http c) (connection_request key)
  /\ answered_200 w (S (n_http c)) (chat_request key)
  /\ answered_200 w (S (S (n_http c))) (tts_request key).
Proof. exact (test_api_main_all_passed w key c). Qed.

Lemma all_tests_passed_only_after_three_200_witness :
  prints_lit all_passed_line
    (acts (test_api.main healthy (Some (py "sk-test")) start)) = true
  /\ answered_200 healthy 2 (tts_request (Some (py "sk-test"))).
Proof.
  assert (H : prints_lit all_passed_line
                (acts (test_api.main healthy (Some (py "sk-test")) start))
              = true) by (vm_compute; reflexivity).
  split; [exact H | ].
  exact (proj2 (proj2 (@all_tests_passed_only_after_three_200
                         healthy (Some (py "sk-test")) start H))).
Defined.

Section TestApiSummary.

Variable w : world.
Variable key : option pystr.

Ltac decide_rate :=
  repeat match goal with
         | H : (_ =? _)%float = _ |- _ =>
             vm_compute in H; try discriminate H; clear H
         | H : (_ <=? _)%float = _ |- _ =>
             vm_compute in H; try discriminate H; clear H
         end.

Lemma test_api_main_verdict c :
  raises_Exception_only w -> PyOps.truthy key = true ->
  wp (test_api.main w key)
     (fun t _ o =>
        o = Returned tt
        /\ exists r1 r2 r4,
             ends_with
               [summary_line r1 r2 r4;
                APrint [Lit (verdict_line
                               (test_api.total_passed_of
                                  (results_of r1 r2 r4)))] newline] t) c.
Proof.
  intros Hw Hk.
  destruct key as [k|]; [ | discriminate Hk].
  unfold test_api.main, test_api.test_whisper, test_api.test_complete_flow,
    test_api.calculate_costs.
  cbn [test_api.for_steps test_api.steps].
  rewrite Hk. cbn [negb].
  match goal with |- wp _ ?Q _ => set (P := Q) end.
  cbv zeta; repeat wp_step.
  wp_use test_connection_runs; intros (S1 & _).
  destruct (@settled_returns _ w _ _ Hw S1) as (r1 & -> & _).
  repeat wp_step.
  wp_use test_chat_completion_runs; intros (S2 & _).
  destruct (@settled_returns _ w _ _ Hw S2) as (r2 & -> & _).
  repeat wp_step.
  wp_use test_tts_runs; intros (S3 & _).
  destruct (@settled_returns _ w _ _ Hw S3) as (r4 & -> & _).
  repeat wp_step. cbn [test_api.for_results]. repeat wp_step.
  all: subst P; cbv beta; split; [reflexivity | exists r1, r2, r4].
  all: destruct r1, r2, r4; decide_rate.
  all: repeat (apply ends_with_app;
               lazymatch goal with |- ends_with _ (_ ++ _) => idtac end).
  all: exists []; reflexivity.
Qed.

End TestApiSummary.

(** X19: With a credential, and failures that are [Exception]s, [test_api.py]
    ends its output with the line [Total: k/5 passed] and one closing line
    chosen by [k]: [All tests passed] for 5, [Most tests passed] for 4,
    [Multiple tests failed] for less. *)
Theorem summary_ends_with_verdict w key c :
  raises_Exception_only w -> PyOps.truthy key = true ->
  exists r1 r2 r4,
    ends_with
      [summary_line r1 r2 r4;
       APrint [Lit (verdict_line
                      (test_api.total_passed_of (results_of r1 r2 r4)))]
              newline]
      (acts (test_api.main w key c)).
Proof.
  intros Hw Hk. exact (proj2 (@test_api_main_verdict w key c Hw Hk)).
Qed.

Lemma summary_ends_with_verdict_witness :
  exists r1 r2 r4,
    ends_with
      [summary_line r1 r2 r4;
       APrint [Lit (verdict_line
                      (test_api.total_passed_of (results_of r1 r2 r4)))]
              newline]
      (acts (test_api.main (offline env_sk_test) (Some (py "sk-test")) start)).
Proof.
  apply (@summary_ends_with_verdict (offline env_sk_test)
           (Some (py "sk-test")) start).
  - apply offline_raises_Exception_only.
  - reflexivity.
Defined.

(** X20: With a credential, and failures that are [Exception]s, a run of the
    test suite does, besides printing: the three requests in the order
    models, chat completion, speech; the writing of the audio file when the
    speech request was answered with status 200; and the five pauses of half
    a second of the simulated flow.  It returns whatever the service
    answers. *)
Theorem test_suite_effects w key c :
  raises_Exception_only w -> PyOps.truthy key = true ->
  out (test_api.main w key c) = Returned tt
  /\ effects (acts (test_api.main w key c))
     = [AHttp (connection_request key); AHttp (chat_request key);
        AHttp (tts_request key)]
       ++ map (fun f => AWriteFile (fst f) (snd f))
              (tts_file w key (2 + n_http c))
       ++ repeat (ASleep 0.5) 5.
Proof. intros Hw Hk. exact (@test_api_main_effects w key c Hw Hk). Qed.

Lemma test_suite_effects_witness :
  effects (acts (test_api.main healthy (Some (py "sk-test")) start))
  = [AHttp (connection_request (Some (py "sk-test")));
     AHttp (chat_request (Some (py "sk-test")));
     AHttp (tts_request (Some (py "sk-test")));
     AWriteFile test_api.output_path audio]
    ++ repeat (ASleep 0.5) 5.
Proof.
  refine (proj2 (@test_suite_effects healthy (Some (py "sk-test")) start _ _)).
  - split; simpl; intros; discriminate.
  - reflexivity.
Defined.

(* ================================================================== *)
(** * test_realtime_api.py: when the check grants access *)
(* ================================================================== *)

Lemma sent_effects t : sent (effects t) = sent t.
Proof. now apply flat_map_effects. Qed.

Section RealtimeAccess.

Variable w : world.

Ltac first_reply :=
  lazymatch goal with
  | |- reply_is _ _ _ =>
      unfold reply_is, event_type;
      match goal with
      | H : ws_recv _ _ = Answer ?d |- _ =>
          exists d; eexists; split; [exact H | ];
          repeat match goal with
                 | H' : ?x = _ |- context [?x] =>
                     rewrite H'; cbn [result_bind]
                 end;
          split; [reflexivity | assumption]
      end
  end.

Lemma test_realtime_connection_access key fuel c :
  wp (test_realtime_api.test_realtime_connection w key fuel)
     (fun t _ o =>
        (o = Returned true \/ o = OutOfFuel ->
         ws_connect w = Answer tt
         /\ reply_is w (n_recv c) (py "session.created"))
        /\ (o = Returned true ->
            exists j, go_on_until w (S (n_recv c)) j
                      /\ is_done (ws_recv w (S (n_recv c) + j)) = true)
        /\ (reply_is w (n_recv c) (py "session.created")
            \/ sent t = []
            \/ sent t = [test_realtime_api.session_update])) c.
Proof.
  unfold test_realtime_api.test_realtime_connection.
  match goal with |- wp _ ?Q _ => set (P := Q) end.
  cbv zeta; repeat first [handle | wp_step].
  all: try (wp_use (response_loop_runs w fuel); intros (k & He & Ho);
            repeat first [handle | wp_step]).
  all: subst P; cbv beta.
  all: cbn [n_recv bump_send bump_recv] in *.
  all: repeat match goal with u : unit |- _ => destruct u end.
  all: refine (conj _ (conj _ _)).
  all: try solve [intros [H|H]; discriminate H].
  all: try solve [intros H; discriminate H].
  all: try solve [right; left; reflexivity].
  all: try solve [right; right; reflexivity].
  all: try solve [left; first_reply].
  all: try solve [intros _; split; [reflexivity || assumption | first_reply]].
  all: try solve [intros _; destruct Ho as (j & _ & Hj & Hd & _);
                  exists j; split; assumption].
Qed.

End RealtimeAccess.



(** X22: Unless the first reply is a [session.created] event, the realtime check
    returns [False], and it has sent nothing but, at most, the session
    update. *)
Theorem realtime_check_fails_unless_session_created w key fuel c :
  raises_Exception_only w ->
  ~ reply_is w (n_recv c) (py "session.created") ->
  out (test_realtime_api.test_realtime_connection w key fuel c)
  = Returned false
  /\ (sent (acts (test_realtime_api.test_realtime_connection w key fuel c))
      = []
      \/ sent (acts (test_realtime_api.test_realtime_connection w key fuel c))
         = [test_realtime_api.session_update]).
Proof.
  intros Hw Hn.
  destruct (test_realtime_connection_access w key fuel c) as (A & _ & S).
  destruct (test_realtime_connection_runs w key fuel c) as (_ & Ho).
  split; [ | destruct S as [S|S]; [contradiction | exact S]].
  destruct (out (test_realtime_api.test_realtime_connection w key fuel c))
    as [[|]|e|].
  - destruct (A (or_introl eq_refl)) as [_ A2]. contradiction.
  - reflexivity.
  - destruct Ho as [Hx Hr].
    rewrite (world_raised_Exception Hw Hr) in Hx. discriminate Hx.
  - destruct (A (or_intror eq_refl)) as [_ A2]. contradiction.
Qed.

Lemma realtime_check_fails_unless_session_created_witness :
  out (test_realtime_api.test_realtime_connection rejecting
         (Some (py "sk-test")) 3 start)
  = Returned false.
Proof.
  refine (proj1 (@realtime_check_fails_unless_session_created
                   rejecting (Some (py "sk-test")) 3 start _ _)).
  - apply service_raises_Exception_only. intros n e H. discriminate H.
  - intros (d & ty & H1 & H2 & H3). injection H1 as <-.
    vm_compute in H2. injection H2 as <-. vm_compute in H3. discriminate H3.
Defined.

(** X23: A handshake refused with an HTTP status: the check returns [False]
    having sent nothing, and prints a hint for the statuses 401, 403, 429
    and 503, each its own, and none for any other status. *)
Theorem refused_handshake_hints w k fuel c status :
  k <> [] ->
  ssl_context w = Answer tt ->
  ws_connect w = Fail (InvalidStatusCode status) ->
  let r := test_realtime_api.test_realtime_connection w (Some k) fuel c in
  out r = Returned false
  /\ effects (acts r) = [handshake (Some k)]
  /\ prints_lit hint_401 (acts r) = (status =? 401)
  /\ prints_lit hint_403 (acts r) = (status =? 403)
  /\ prints_lit hint_429 (acts r) = (status =? 429)
  /\ prints_lit hint_503 (acts r) = (status =? 503).
Proof.
  intros Hk Hs Hc. cbv zeta.
  destruct k as [|a k]; [now destruct Hk | ].
  change (wp (test_realtime_api.test_realtime_connection w (Some (a :: k)) fuel)
            (fun t _ o =>
               o = Returned false
               /\ effects t = [handshake (Some (a :: k))]
               /\ prints_lit hint_401 t = (status =? 401)
               /\ prints_lit hint_403 t = (status =? 403)
               /\ prints_lit hint_429 t = (status =? 429)
               /\ prints_lit hint_503 t = (status =? 503)) c).
  unfold test_realtime_api.test_realtime_connection.
  cbn [PyOps.truthy negb]. generalize (a :: k). intros key.
  match goal with |- wp _ ?Q _ => set (P := Q) end.
  cbv zeta; repeat first [handle | wp_step].
  all: subst P; cbv beta.
  all: fix_status.
  all: repeat match goal with
         | H : (_ =? _) = false |- _ => rewrite H; clear H
         end.
  all: repeat split; reflexivity.
Qed.

Lemma refused_handshake_hints_witness :
  prints_lit hint_403
    (acts (test_realtime_api.test_realtime_connection (refusing 403)
             (Some (py "sk-test")) 3 start))
  = true.
Proof.
  assert (H : py "sk-test" <> []) by (vm_compute; discriminate).
  exact (proj1 (proj2 (proj2 (proj2
    (@refused_handshake_hints (refusing 403) (py "sk-test") 3 start 403
       H eq_refl eq_refl))))).
Defined.





(* ================================================================== *)
(** * test_realtime_api.py: what the loop prints, and the closing line *)
(* ================================================================== *)

Lemma goes_on_inv r :
  goes_on r = true ->
  exists d event ty,
    r = Answer d /\ json_loads d = Ok event
    /\ PyOps.getitem event (py "type") = Ok ty
    /\ PyOps.eq_str ty (py "response.done") = false
    /\ (PyOps.eq_str ty (py "response.text.delta") = true ->
        exists delta, PyOps.get event (py "delta") (VStr []) = Ok delta
                      /\ encodable delta = true).
Proof.
  unfold goes_on. destruct r as [d|e]; [ | discriminate].
  destruct (json_loads d) as [event|e] eqn:J; [ | discriminate].
  destruct (PyOps.getitem event (py "type")) as [ty|e] eqn:E; [ | discriminate].
  intros H. apply andb_prop in H as [H1 H2]. apply negb_true_iff in H1.
  exists d, event, ty.
  refine (conj eq_refl (conj J (conj E (conj H1 _)))).
  intros H3. rewrite H3 in H2.
  destruct (PyOps.get event (py "delta") (VStr [])) as [delta|e];
    [ | discriminate].
  now exists delta.
Qed.

Lemma is_done_inv r :
  is_done r = true ->
  exists d event ty,
    r = Answer d /\ json_loads d = Ok event
    /\ PyOps.getitem event (py "type") = Ok ty
    /\ PyOps.eq_str ty (py "response.done") = true.
Proof.
  unfold is_done, event_type. destruct r as [d|e]; [ | discriminate].
  destruct (json_loads d) as [event|e] eqn:J; [ | discriminate].
  cbn [result_bind].
  destruct (PyOps.getitem event (py "type")) as [ty|e] eqn:E; [ | discriminate].
  intros H. exists d, event, ty. repeat split; assumption || reflexivity.
Qed.

Lemma go_on_until_tail w n j :
  go_on_until w n (S j) ->
  goes_on (ws_recv w n) = true /\ go_on_until w (S n) j.
Proof.
  intros H. split.
  - rewrite <- (Nat.add_0_r n). apply H. lia.
  - intros i Hi. rewrite Nat.add_succ_comm. apply H. lia.
Qed.

Section ResponseLoopPrints.

Variable w : world.

Lemma response_loop_echoes j :
  forall fuel c,
    go_on_until w (n_recv c) j ->
    is_done (ws_recv w (n_recv c + j)) = true ->
    (j < fuel)%nat ->
    wp (test_realtime_api.response_loop w fuel)
       (fun t _ o =>
          o = Returned tt
          /\ printed t
             = flat_map (fun n => delta_text (ws_recv w n)) (seq (n_recv c) j)
               ++ [completed_line]) c.
Proof.
  induction j as [|j IH]; intros fuel c Hg Hd Hf;
    (destruct fuel as [|fuel]; [lia | ]);
    cbn [test_realtime_api.response_loop].
  - rewrite Nat.add_0_r in Hd.
    destruct (is_done_inv _ Hd) as (d & event & ty & E1 & E2 & E3 & E4).
    wp_run. split; reflexivity.
  - destruct (go_on_until_tail Hg) as [H0 Hg'].
    destruct (goes_on_inv _ H0) as (d & event & ty & E1 & E2 & E3 & E4 & E5).
    rewrite <- Nat.add_succ_comm in Hd.
    assert (IH' := IH fuel (bump_recv c) Hg' Hd (proj2 (Nat.succ_lt_mono _ _) Hf)).
    match goal with |- wp _ ?Q _ => set (P := Q) end.
    cbv zeta; repeat wp_step.
    all: try (eapply wp_conseq; [exact IH' | ];
              cbv beta; intros t1 c1 o1 [-> Hp]; subst P; cbv beta;
              split; [reflexivity | ];
              rewrite !printed_app, Hp; cbn [seq flat_map];
              unfold delta_text; rewrite E1, E2, E3;
              repeat match goal with
                     | H : ?x = _ |- context [?x] => rewrite H
                     end;
              reflexivity).
    all: try solve [destruct (E5 eq_refl) as (delta & Eq & En); congruence].
    all: match goal with
         | H1 : PyOps.getitem ?ev _ = Ok _,
           H2 : PyOps.get ?ev ?k ?d = Err _ |- _ =>
             destruct (@getitem_then_get _ _ _ k d H1) as [? ?]; congruence
         end.
Qed.

End ResponseLoopPrints.

(** X25: A response loop that meets [response.done] at its read number [j],
    every read before being an event it goes on from (an event of another
    type, a text delta only with a text that can be printed), prints, in
    the order received, the text of each [response.text.delta] event read
    before, nothing for any other event, and then [AI response completed]. *)
Theorem response_loop_echoes_text_deltas w fuel c j :
  go_on_until w (n_recv c) j ->
  is_done (ws_recv w (n_recv c + j)) = true ->
  (j < fuel)%nat ->
  printed (acts (test_realtime_api.response_loop w fuel c))
  = flat_map (fun n => delta_text (ws_recv w n)) (seq (n_recv c) j)
    ++ [completed_line].
Proof.
  intros Hg Hd Hf. exact (proj2 (@response_loop_echoes w j fuel c Hg Hd Hf)).
Qed.

Lemma response_loop_echoes_text_deltas_witness :
  let w := service env_sk_test 200 []
             (fun n => match n with
                       | O => Answer delta_event
                       | _ => Answer done_event
                       end) in
  printed (acts (test_realtime_api.response_loop w 5 start))
  = [[Lit "   AI: "; Fmt (VStr (py "Hi"))]; completed_line].
Proof.
  cbv zeta.
  apply (@response_loop_echoes_text_deltas
           (service env_sk_test 200 []
              (fun n => match n with
                        | O => Answer delta_event
                        | _ => Answer done_event
                        end)) 5 start 1).
  - intros i Hi. assert (i = 0)%nat as -> by lia. reflexivity.
  - reflexivity.
  - lia.
Defined.

Section RealtimeVerdict.

Variable w : world.





End RealtimeVerdict.


